(** * Tecomat Foxtrot PLC real-time clock update

    A shallow embedding of [tecomat_rtc_update.py]: the frame codec
    ([_calculate_checksum], [_build_rtc_packet], [_parse_response]) and the
    transport session ([connect], [close], [set_rtc]) of class [TecomatRTC],
    followed by the properties the specification states about them; then
    the rest of the program, [periodic_update], the parsers
    [parse_time_string] and [parse_date_string] and [main], with further
    properties read off the code.

    Conventions.
    - Python integers are [Z]; a [bytes] value is a list of integers, each in
      [0, 256), built by [bytes_of], which performs the range check of
      Python's [bytes(...)] constructor.
    - A Python call either returns a value or raises: [result].
    - A [dict] with string keys is a [gmap string value].
    - Socket calls are answered by a [world], which fixes the outcome of every
      call; the calls a method makes are collected in a trace of [event]s.
    - Console output ([print], [traceback.print_exc]) is answered by the
      [world] too: a statement that writes to the console returns or raises.
      What is written is not modelled; a statement is named by its line in
      the source. *)

From Stdlib Require Import ZArith QArith.
From stdpp Require Import gmap strings list fin_maps pretty.

Local Open Scope Z_scope.

(** ** Exceptions and results *)

(** The exception classes the program can meet.  All but
    [KeyboardInterrupt] derive from Python's [Exception]; [socket_timeout]
    is [socket.timeout]; [UnicodeEncodeError], which [print] raises on a
    console that cannot encode a character, derives from [ValueError]. *)
Inductive exception : Type :=
  | ValueError (msg : string)
  | UnicodeEncodeError (msg : string)
  | KeyError (key : string)
  | OverflowError (msg : string)
  | AttributeError (msg : string)
  | OSError (msg : string)
  | socket_timeout
  | KeyboardInterrupt.

(** [isinstance(e, Exception)]. *)
Definition is_Exception (e : exception) : bool :=
  match e with
  | KeyboardInterrupt => false
  | _ => true
  end.

(** [isinstance(e, socket.timeout)]. *)
Definition is_socket_timeout (e : exception) : bool :=
  match e with
  | socket_timeout => true
  | _ => false
  end.

Inductive result (A : Type) : Type :=
  | Returned (a : A)
  | Raised (e : exception).
Arguments Returned {A} a.
Arguments Raised {A} e.

#[global] Instance result_ret : MRet result := fun A a => Returned a.
#[global] Instance result_bind : MBind result := fun A B f r =>
  match r with
  | Returned a => f a
  | Raised e => Raised e
  end.

(** ** Values of the Python library used by the program *)

Abbreviation bytes := (list Z).

Definition is_byte (b : Z) : bool := (0 <=? b) && (b <? 256).

(** [bytes(payload)]: every element must be in [range(0, 256)]. *)
Definition bytes_of (payload : list Z) : result bytes :=
  if forallb is_byte payload then Returned payload
  else Raised (ValueError "bytes must be in range(0, 256)").

(** [sum(l)]. *)
Definition sum (l : list Z) : Z := fold_left Z.add l 0.

(** [x in b] for a byte string [b]. *)
Definition contains (b : bytes) (x : Z) : bool := existsb (Z.eqb x) b.

(** [b.index(x)]: position of the first [x]; raises when there is none. *)
Fixpoint index (b : bytes) (x : Z) : result Z :=
  match b with
  | [] => Raised (ValueError "subsection not found")
  | y :: b' => if y =? x then Returned 0 else i ← index b' x; mret (i + 1)
  end.

(** [len(b)]. *)
Definition len (b : bytes) : Z := Z.of_nat (length b).

Definition hex_digit (d : Z) : string :=
  match d with
  | 0 => "0" | 1 => "1" | 2 => "2" | 3 => "3" | 4 => "4" | 5 => "5"
  | 6 => "6" | 7 => "7" | 8 => "8" | 9 => "9" | 10 => "a" | 11 => "b"
  | 12 => "c" | 13 => "d" | 14 => "e" | _ => "f"
  end.

(** [b.hex(' ')]: two lower-case digits per byte, separated by a space. *)
Fixpoint hex (b : bytes) : string :=
  match b with
  | [] => ""
  | x :: b' =>
      let digits := hex_digit (x / 16) +:+ hex_digit (x mod 16) in
      match b' with
      | [] => digits
      | _ => digits +:+ " " +:+ hex b'
      end
  end.

(** What [_build_rtc_packet] reads from its [dt] argument: six attributes
    and the value of [dt.weekday()] (0 = Monday ... 6 = Sunday for a
    [datetime.datetime]).  [microsecond] is carried by every [datetime] and
    read nowhere. *)
Module datetime.
Record t : Type := make {
  year : Z;
  month : Z;
  day : Z;
  hour : Z;
  minute : Z;
  second : Z;
  microsecond : Z;
  weekday : Z
}.
End datetime.

(** The values stored in a [dict] of [_parse_response]. *)
Inductive value : Type :=
  | VBool (b : bool)
  | VInt (n : Z)
  | VStr (s : string).

Abbreviation dict := (gmap string value).

(** [d[key]]. *)
Definition getitem (d : dict) (key : string) : result value :=
  match d !! key with
  | Some v => Returned v
  | None => Raised (KeyError key)
  end.

(** Truth value of an object, as [if] tests it. *)
Definition truthy (v : value) : bool :=
  match v with
  | VBool b => b
  | VInt n => negb (n =? 0)
  | VStr s => negb (String.eqb s "")
  end.

(** ** class TecomatRTC *)

(** A UDP socket object, as far as the program can tell sockets apart:
    whether [bind] has succeeded on it, and the timeout last set. *)
Record socket : Type := {
  bound : bool;
  timeout_set : option Q
}.

Record TecomatRTC : Type := {
  plc_ip : string;
  plc_port : Z;
  local_port : Z;
  sock : option socket
}.

(** Protocol constants.  They are attributes of the class: no statement of
    the program assigns them, on the class or on an object, so that
    [self.RTC_COMMAND] and [self.DATA_LENGTH] read these two values on every
    object. *)
Definition RTC_COMMAND : Z := 0x63.
Definition DATA_LENGTH : Z := 0x08.

(** [TecomatRTC(plc_ip, plc_port, local_port)] *)
Definition __init__ (plc_ip : string) (plc_port local_port : Z) : TecomatRTC :=
  {| plc_ip := plc_ip; plc_port := plc_port; local_port := local_port;
     sock := None |}.

Definition _calculate_checksum (self : TecomatRTC) (data_bytes : list Z) : Z :=
  let total := sum data_bytes in
  let checksum := Z.land (total - 0x20) 0xFF in
  checksum.

Definition _build_rtc_packet (self : TecomatRTC) (dt : datetime.t) : result bytes :=
  let year := datetime.year dt - 2000 in
  let month := datetime.month dt in
  let day := datetime.day dt in
  let hour := datetime.hour dt in
  let minute := datetime.minute dt in
  let second := datetime.second dt in
  let dow := datetime.weekday dt + 1 in
  if negb ((0 <=? year) && (year <=? 99)) then
    Raised (ValueError ("Year out of range: " +:+ pretty (datetime.year dt)
                        +:+ " (must be 2000-2099)"))
  else if negb ((1 <=? month) && (month <=? 12)) then
    Raised (ValueError ("Month out of range: " +:+ pretty month))
  else if negb ((1 <=? day) && (day <=? 31)) then
    Raised (ValueError ("Day out of range: " +:+ pretty day))
  else if negb ((0 <=? hour) && (hour <=? 23)) then
    Raised (ValueError ("Hour out of range: " +:+ pretty hour))
  else if negb ((0 <=? minute) && (minute <=? 59)) then
    Raised (ValueError ("Minute out of range: " +:+ pretty minute))
  else if negb ((0 <=? second) && (second <=? 59)) then
    Raised (ValueError ("Second out of range: " +:+ pretty second))
  else
    let rtc_data := [DATA_LENGTH; year; month; day; hour; minute; second; dow] in
    let checksum := _calculate_checksum self rtc_data in
    let header := [0x02; 0x01; 0x02; 0x00; 0x00;
                   0x11;
                   0x68; 0x0b; 0x0b;
                   0x68; 0x00; 0x7d] in
    let payload := header ++ [RTC_COMMAND] ++ rtc_data ++ [checksum; 0x16; 0x00] in
    bytes_of payload.

Definition _parse_response (self : TecomatRTC) (response : bytes) : result dict :=
  if len response <? 6 then
    mret ({[ "success" := VBool false;
             "error" := VStr ("Response too short (" +:+ pretty (len response)
                              +:+ " bytes)");
             "raw" := VStr (hex response) ]} : dict)
  else
    let payload := response in
    if contains payload 0xE5 then
      e5_pos ← index payload 0xE5;
      mret ({[ "success" := VBool true;
               "status_code" := VInt 0xE5;
               "e5_position" := VInt e5_pos;
               "payload" := VStr (hex payload);
               "length" := VInt (len payload);
               "raw" := VStr (hex response) ]} : dict)
    else
      mret ({[ "success" := VBool false;
               "error" := VStr "No 0xE5 ACK found in response";
               "payload" := VStr (hex payload);
               "length" := VInt (len payload);
               "raw" := VStr (hex response) ]} : dict).

(** ** The outside world and the session monad *)

(** The peer address a datagram came from: [(host, port)]. *)
Abbreviation address := (string * Z)%type.

(** The outcome of every call that leaves the program: the clock, the date
    arithmetic of the [datetime] library, the console and the operations of
    the [socket] library.  [console w line] is the outcome of the statement
    at source line [line] that writes to the console: a [print], with the
    evaluation of what it prints, or [traceback.print_exc()]. *)
Record world : Type := {
  datetime_now : datetime.t;
  timedelta_add : datetime.t -> Z -> result datetime.t;
  console : Z -> result unit;
  socket_socket : result unit;
  socket_bind : Z -> result unit;
  socket_sendto : bytes -> address -> result unit;
  socket_settimeout : Q -> result unit;
  socket_recvfrom : Z -> result (bytes * address)
}.

(** One socket call made by the program, with its outcome. *)
Inductive event : Type :=
  | ev_socket (r : result unit)
  | ev_bind (port : Z) (r : result unit)
  | ev_sendto (packet : bytes) (to : address) (r : result unit)
  | ev_settimeout (t : Q) (r : result unit)
  | ev_recvfrom (bufsize : Z) (r : result (bytes * address))
  | ev_close.

(** A method of [TecomatRTC]: it runs in a world on the object [self], returns
    or raises, leaves the object in a new state and has made some socket
    calls. *)
Definition M (A : Type) : Type :=
  world -> TecomatRTC -> result A * TecomatRTC * list event.

#[global] Instance M_ret : MRet M := fun A a _ self => (Returned a, self, []).
#[global] Instance M_bind : MBind M := fun A B f m w self =>
  match m w self with
  | (Returned a, self', t) =>
      match f a w self' with
      | (r, self'', t') => (r, self'', t ++ t')
      end
  | (Raised e, self', t) => (Raised e, self', t)
  end.

Definition lift {A} (r : result A) : M A := fun _ self => (r, self, []).

Definition get_self : M TecomatRTC := fun _ self => (Returned self, self, []).

(** [self.sock = s] *)
Definition set_sock (s : option socket) : M unit := fun _ self =>
  (Returned tt,
   {| plc_ip := plc_ip self; plc_port := plc_port self;
      local_port := local_port self; sock := s |},
   []).

(** [try: body / except <class>: handler], where [catches] tells the
    instances of the class. *)
Definition try_except {A} (body : M A) (catches : exception -> bool)
    (handler : exception -> M A) : M A := fun w self =>
  match body w self with
  | (Raised e, self', t) =>
      if catches e then
        match handler e w self' with
        | (r, self'', t') => (r, self'', t ++ t')
        end
      else (Raised e, self', t)
  | r => r
  end.

(** A method call on [self.sock]; on [None] the attribute lookup fails. *)
Definition on_sock {A} (method : string) (call : socket -> M A) : M A :=
  self ← get_self;
  match sock self with
  | Some s => call s
  | None =>
      lift (Raised (AttributeError
        ("'NoneType' object has no attribute '" +:+ method +:+ "'")))
  end.

(** [try: body / except <class 1>: handler 1 / except <class 2>: handler 2]:
    the first clause whose class the exception is an instance of handles it;
    what a handler raises is not handled by the other clause. *)
Definition try_except2 {A} (body : M A)
    (catches1 : exception -> bool) (handler1 : exception -> M A)
    (catches2 : exception -> bool) (handler2 : exception -> M A) : M A :=
  fun w self =>
  match body w self with
  | (Raised e, self', t) =>
      if catches1 e then
        match handler1 e w self' with
        | (r, self'', t') => (r, self'', t ++ t')
        end
      else if catches2 e then
        match handler2 e w self' with
        | (r, self'', t') => (r, self'', t ++ t')
        end
      else (Raised e, self', t)
  | r => r
  end.

(** [try: body / finally: cleanup]: [cleanup] runs however [body] ends, and
    what it raises replaces the outcome of [body]. *)
Definition try_finally {A} (body : M A) (cleanup : M unit) : M A :=
  fun w self =>
  match body w self with
  | (r, self', t) =>
      match cleanup w self' with
      | (Returned _, self'', t') => (r, self'', t ++ t')
      | (Raised e, self'', t') => (Raised e, self'', t ++ t')
      end
  end.

(** Console statements at the given lines, one after the other: the first
    that raises ends them. *)
Fixpoint first_failure (w : world) (lines : list Z) : result unit :=
  match lines with
  | [] => Returned tt
  | line :: lines' =>
      match console w line with
      | Returned _ => first_failure w lines'
      | Raised e => Raised e
      end
  end.

Definition print (lines : list Z) : M unit := fun w self =>
  (first_failure w lines, self, []).

Definition now : M datetime.t := fun w self =>
  (Returned (datetime_now w), self, []).

(** [dt + timedelta(hours=h)] *)
Definition add_hours (dt : datetime.t) (h : Z) : M datetime.t := fun w self =>
  (timedelta_add w dt h, self, []).

(** [socket.socket(socket.AF_INET, socket.SOCK_DGRAM)] *)
Definition new_socket : M socket := fun w self =>
  (_ ← socket_socket w; mret {| bound := false; timeout_set := None |},
   self, [ev_socket (socket_socket w)]).

(** [self.sock.bind(('', port))] *)
Definition bind (port : Z) : M unit :=
  on_sock "bind" (fun s w self =>
    let r := socket_bind w port in
    (r,
     match r with
     | Returned _ =>
         {| plc_ip := plc_ip self; plc_port := plc_port self;
            local_port := local_port self;
            sock := Some {| bound := true; timeout_set := timeout_set s |} |}
     | Raised _ => self
     end,
     [ev_bind port r])).

(** [self.sock.sendto(packet, to)] *)
Definition sendto (packet : bytes) (to : address) : M unit :=
  on_sock "sendto" (fun _ w self =>
    let r := socket_sendto w packet to in (r, self, [ev_sendto packet to r])).

(** [self.sock.settimeout(t)] *)
Definition settimeout (t : Q) : M unit :=
  on_sock "settimeout" (fun s w self =>
    let r := socket_settimeout w t in
    (r,
     match r with
     | Returned _ =>
         {| plc_ip := plc_ip self; plc_port := plc_port self;
            local_port := local_port self;
            sock := Some {| bound := bound s; timeout_set := Some t |} |}
     | Raised _ => self
     end,
     [ev_settimeout t r])).

(** [self.sock.recvfrom(bufsize)] *)
Definition recvfrom (bufsize : Z) : M (bytes * address) :=
  on_sock "recvfrom" (fun _ w self =>
    let r := socket_recvfrom w bufsize in (r, self, [ev_recvfrom bufsize r])).

(** [self.sock.close()] *)
Definition sock_close : M unit :=
  on_sock "close" (fun _ _ self => (Returned tt, self, [ev_close])).

(** ** Methods of the transport session *)

Definition connect : M unit :=
  s ← new_socket;
  set_sock (Some s);;
  self ← get_self;
  bind (local_port self);;
  print [141].

Definition close : M unit :=
  self ← get_self;
  if bool_decide (is_Some (sock self)) then
    sock_close;;
    set_sock None;;
    print [148]
  else mret tt.

Definition set_rtc (dt : option datetime.t) (timezone_offset : Z)
    (timeout : Q) (verify : bool) : M bool :=
  dt ← match dt with
       | None => now
       | Some dt => mret dt
       end;
  dt ← (if negb (timezone_offset =? 0) then
          dt ← add_hours dt timezone_offset;
          print [218; 219; 220];;
          mret dt
        else mret dt);
  try_except
    (self ← get_self;
     (if negb (bool_decide (is_Some (sock self))) then connect else mret tt);;
     self ← get_self;
     packet ← lift (_build_rtc_packet self dt);
     sendto packet (plc_ip self, plc_port self);;
     print [232; 233; 234];;
     (if 21 <=? len packet then print [238] else mret tt);;
     if verify then
       settimeout timeout;;
       try_except
         ('(response, addr) ← recvfrom 1024;
          print [246; 247];;
          self ← get_self;
          result ← lift (_parse_response self response);
          success ← lift (getitem result "success");
          if truthy success then
            print [253];;
            lift (getitem result "payload");;
            print [254];;
            (if bool_decide (is_Some (result !! "e5_position")) then print [256]
             else mret tt);;
            mret true
          else
            lift (getitem result "error");;
            print [259; 260];;
            mret false)
         is_socket_timeout
         (fun _ => print [264; 265];; mret false)
     else
       print [268];;
       mret true)
    is_Exception
    (fun e => print [272; 274];; mret false).

(** ** The specification's vocabulary *)

(** The day-of-week field of a ClockValue: what the frame carries at offset
    20, [dt.weekday() + 1]. *)
Definition dow (dt : datetime.t) : Z := datetime.weekday dt + 1.

(** The domain of a ClockValue. *)
Definition valid_ClockValue (dt : datetime.t) : Prop :=
  2000 <= datetime.year dt <= 2099 /\
  1 <= datetime.month dt <= 12 /\
  1 <= datetime.day dt <= 31 /\
  0 <= datetime.hour dt <= 23 /\
  0 <= datetime.minute dt <= 59 /\
  0 <= datetime.second dt <= 59 /\
  1 <= dow dt <= 7.

(** The RTC data block of a ClockValue. *)
Definition data_block (dt : datetime.t) : list Z :=
  [0x08; datetime.year dt - 2000; datetime.month dt; datetime.day dt;
   datetime.hour dt; datetime.minute dt; datetime.second dt; dow dt].

(** [i] is the zero-based position of the first [x] in [b]. *)
Definition first_occurrence (x : Z) (b : bytes) (i : nat) : Prop :=
  b !! i = Some x /\ forall j, (j < i)%nat -> b !! j <> Some x.

(** The ResponseInterpretation a [dict] of [_parse_response] stands for. *)
Definition Acknowledged (d : dict) (position : Z) : Prop :=
  d !! "success" = Some (VBool true) /\
  d !! "e5_position" = Some (VInt position).

Definition Rejected_too_short (d : dict) (count : Z) : Prop :=
  d !! "success" = Some (VBool false) /\
  d !! "error" =
    Some (VStr ("Response too short (" +:+ pretty count +:+ " bytes)")).

Definition Rejected_no_ACK_marker_found (d : dict) : Prop :=
  d !! "success" = Some (VBool false) /\
  d !! "error" = Some (VStr "No 0xE5 ACK found in response").

(** The fields [_build_rtc_packet] range-checks, in the order of the checks. *)
Inductive field : Type := Year | Month | Day | Hour | Minute | Second.

Definition field_value (f : field) (dt : datetime.t) : Z :=
  match f with
  | Year => datetime.year dt
  | Month => datetime.month dt
  | Day => datetime.day dt
  | Hour => datetime.hour dt
  | Minute => datetime.minute dt
  | Second => datetime.second dt
  end.

Definition in_domain (f : field) (v : Z) : Prop :=
  match f with
  | Year => 2000 <= v <= 2099
  | Month => 1 <= v <= 12
  | Day => 1 <= v <= 31
  | Hour => 0 <= v <= 23
  | Minute => 0 <= v <= 59
  | Second => 0 <= v <= 59
  end.

Definition rank (f : field) : nat :=
  match f with
  | Year => 0 | Month => 1 | Day => 2 | Hour => 3 | Minute => 4 | Second => 5
  end.

(** A message that names field [f] and the value [v]. *)
Definition range_message (f : field) (v : Z) : string :=
  match f with
  | Year => "Year out of range: " +:+ pretty v +:+ " (must be 2000-2099)"
  | Month => "Month out of range: " +:+ pretty v
  | Day => "Day out of range: " +:+ pretty v
  | Hour => "Hour out of range: " +:+ pretty v
  | Minute => "Minute out of range: " +:+ pretty v
  | Second => "Second out of range: " +:+ pretty v
  end.

(** What a run of a method leaves behind. *)
Definition outcome {A} (run : result A * TecomatRTC * list event) : result A :=
  run.1.1.
Definition final {A} (run : result A * TecomatRTC * list event) : TecomatRTC :=
  run.1.2.
Definition calls {A} (run : result A * TecomatRTC * list event) : list event :=
  run.2.

(** The date [set_rtc] sets out to encode: [dt], or the clock's reading when
    there is none, moved by [timezone_offset] hours when that is not 0. *)
Definition target (w : world) (dt : option datetime.t) (timezone_offset : Z) :
    result datetime.t :=
  let dt := match dt with
            | None => datetime_now w
            | Some dt => dt
            end in
  if negb (timezone_offset =? 0) then timedelta_add w dt timezone_offset
  else Returned dt.

(** A reply is decoded as Acknowledged, or as Rejected. *)
Definition decoded_Acknowledged (self : TecomatRTC) (response : bytes) : Prop :=
  exists (d : dict) position,
    _parse_response self response = Returned d /\ Acknowledged d position.

Definition decoded_Rejected (self : TecomatRTC) (response : bytes) : Prop :=
  exists d : dict,
    _parse_response self response = Returned d /\
    (Rejected_too_short d (len response) \/ Rejected_no_ACK_marker_found d).

(** Every failure of a socket call and of a console statement in [w] is an
    instance of [Exception]. *)
Definition raises_only_Exception (w : world) : Prop :=
  (forall e, socket_socket w = Raised e -> is_Exception e = true) /\
  (forall port e, socket_bind w port = Raised e -> is_Exception e = true) /\
  (forall packet to e,
     socket_sendto w packet to = Raised e -> is_Exception e = true) /\
  (forall t e, socket_settimeout w t = Raised e -> is_Exception e = true) /\
  (forall n e, socket_recvfrom w n = Raised e -> is_Exception e = true) /\
  (forall line e, console w line = Raised e -> is_Exception e = true).

(** Every console statement returns in [w]. *)
Definition console_works (w : world) : Prop :=
  forall line, console w line = Returned tt.

(** The console statements of [set_rtc] before its [try] block return, when
    they are reached at all: they follow the timezone adjustment. *)
Definition adjustment_printed (w : world) (timezone_offset : Z) : Prop :=
  timezone_offset <> 0 -> first_failure w [218; 219; 220] = Returned tt.

(** [set_rtc] needs no [connect] on [self], or [connect] succeeds in [w]:
    the socket is created and bound, and the [print] of [connect] returns. *)
Definition connected (w : world) (self : TecomatRTC) : Prop :=
  is_Some (sock self) \/
  socket_socket w = Returned tt /\
  socket_bind w (local_port self) = Returned tt /\
  first_failure w [141] = Returned tt.

(** The console statements of the [except Exception] handler of [set_rtc]
    return. *)
Definition handler_printed (w : world) : Prop :=
  first_failure w [272; 274] = Returned tt.

(** The exception a socket call of the trace ended with, if it raised. *)
Definition failure (ev : event) : option exception :=
  match ev with
  | ev_socket (Raised e) | ev_bind _ (Raised e) | ev_sendto _ _ (Raised e)
  | ev_settimeout _ (Raised e) | ev_recvfrom _ (Raised e) => Some e
  | _ => None
  end.

(** The frame as a function of the seven fields of a ClockValue and of
    nothing else: the first of year, month, day, hour, minute and second
    outside its range is reported; otherwise the 24 bytes of the layout are
    the fixed header, the command, the data block, its sum less 0x20 modulo
    256 and the trailer, provided the day-of-week fits a byte. *)
Definition frame_of_fields (year month day hour minute second dow : Z) :
    result bytes :=
  if bool_decide (~ 2000 <= year <= 2099) then
    Raised (ValueError (range_message Year year))
  else if bool_decide (~ 1 <= month <= 12) then
    Raised (ValueError (range_message Month month))
  else if bool_decide (~ 1 <= day <= 31) then
    Raised (ValueError (range_message Day day))
  else if bool_decide (~ 0 <= hour <= 23) then
    Raised (ValueError (range_message Hour hour))
  else if bool_decide (~ 0 <= minute <= 59) then
    Raised (ValueError (range_message Minute minute))
  else if bool_decide (~ 0 <= second <= 59) then
    Raised (ValueError (range_message Second second))
  else if bool_decide (0 <= dow < 256) then
    Returned
      ([0x02; 0x01; 0x02; 0x00; 0x00; 0x11; 0x68; 0x0B; 0x0B; 0x68; 0x00; 0x7D;
        0x63; 0x08; year - 2000; month; day; hour; minute; second; dow;
        (0x08 + (year - 2000) + month + day + hour + minute + second + dow
         - 0x20) mod 256;
        0x16; 0x00])
  else Raised (ValueError "bytes must be in range(0, 256)").

(** ** Sample objects *)

(** The updater with the default ports, not yet connected. *)
Definition rtc0 : TecomatRTC := __init__ "192.168.11.50" 61682 64481.

(** 2025-10-17 14:30:00, a Friday. *)
Definition friday : datetime.t := datetime.make 2025 10 17 14 30 0 0 4.

(** 2000-01-01 00:00:00 with day-of-week 1: the smallest data block. *)
Definition minimal_clock : datetime.t := datetime.make 2000 1 1 0 0 0 0 0.

(** Dates no calendar has. *)
Definition february_30 : datetime.t := datetime.make 2025 2 30 12 0 0 0 6.
Definition april_31 : datetime.t := datetime.make 2025 4 31 12 0 0 0 3.

(** A clock value of the year 2100. *)
Definition year_2100 : datetime.t := datetime.make 2100 1 1 0 0 0 0 4.

(** 2025-10-32: a clock value with a day no month has. *)
Definition october_32 : datetime.t := datetime.make 2025 10 32 14 30 0 0 4.

(** [friday] with another sub-second part. *)
Definition friday_later : datetime.t := datetime.make 2025 10 17 14 30 0 999999 4.

(** [rtc0] after an earlier successful [connect] and a verified update. *)
Definition rtc_connected : TecomatRTC :=
  {| plc_ip := "192.168.11.50"; plc_port := 61682; local_port := 64481;
     sock := Some {| bound := true; timeout_set := Some 2%Q |} |}.

(** The frame of [friday]. *)
Definition friday_frame : bytes :=
  [0x02; 0x01; 0x02; 0x00; 0x00; 0x11; 0x68; 0x0B; 0x0B; 0x68; 0x00; 0x7D;
   0x63; 0x08; 0x19; 0x0A; 0x11; 0x0E; 0x1E; 0x00; 0x05; 0x4D; 0x16; 0x00].

(** 9999-12-31 23:30:00, in the last hour a [datetime] can hold. *)
Definition last_hour : datetime.t := datetime.make 9999 12 31 23 30 0 0 4.

(** The controller's address and the reply it sends to acknowledge. *)
Definition plc : address := ("192.168.11.50", 61682).
Definition ack_reply : bytes := [0x02; 0x01; 0x02; 0x00; 0x00; 0x01; 0xE5; 0x00].

(** A world in which every socket call but [recvfrom] succeeds and [recvfrom]
    ends as [reply] says, and every console statement returns.  The clock
    reads [friday].  This world has no calendar: a shift by hours is computed
    when it stays within the day and overflows otherwise, as Python's does
    forward from 9999-12-31. *)
Definition world_replying (reply : result (bytes * address)) : world :=
  {| datetime_now := friday;
     timedelta_add := fun dt h =>
       let hour := datetime.hour dt + h in
       if (0 <=? hour) && (hour <? 24) then
         Returned (datetime.make (datetime.year dt) (datetime.month dt)
                     (datetime.day dt) hour (datetime.minute dt)
                     (datetime.second dt) (datetime.microsecond dt)
                     (datetime.weekday dt))
       else Raised (OverflowError "date value out of range");
     console := fun _ => Returned tt;
     socket_socket := Returned tt;
     socket_bind := fun _ => Returned tt;
     socket_sendto := fun _ _ => Returned tt;
     socket_settimeout := fun _ => Returned tt;
     socket_recvfrom := fun _ => reply |}.

(** The controller acknowledges; it stays silent until the timeout; the user
    interrupts the wait for the reply. *)
Definition plc_acks : world := world_replying (Returned (ack_reply, plc)).
Definition plc_silent : world := world_replying (Raised socket_timeout).
Definition interrupted : world := world_replying (Raised KeyboardInterrupt).

(** The console statements of the program whose text holds an emoji, each
    with the characters a Latin-1 console cannot encode. *)
Definition emoji_lines : list (Z * string) :=
  [(218, "characters in position 0-1");
   (232, "character '\U0001f4e4' in position 1");
   (246, "character '\U0001f4e5' in position 1");
   (253, "character '\u2705' in position 3");
   (259, "character '\u274c' in position 3");
   (264, "characters in position 3-4");
   (268, "characters in position 3-4");
   (272, "character '\u274c' in position 0");
   (485, "character '\u274c' in position 0");
   (519, "character '\u2705' in position 0");
   (524, "character '\u274c' in position 0");
   (535, "characters in position 2-3");
   (538, "character '\u274c' in position 1")].

Fixpoint emoji_at (line : Z) (lines : list (Z * string)) : option string :=
  match lines with
  | [] => None
  | (line', characters) :: lines' =>
      if line' =? line then Some characters else emoji_at line lines'
  end.

(** [w] with a console that encodes no emoji, such as one set to Latin-1:
    the statements of [emoji_lines] raise, the others return. *)
Definition on_latin_console (w : world) : world :=
  {| datetime_now := datetime_now w;
     timedelta_add := timedelta_add w;
     console := fun line =>
       match emoji_at line emoji_lines with
       | Some characters =>
           Raised (UnicodeEncodeError
             ("'latin-1' codec can't encode " +:+ characters
              +:+ ": ordinal not in range(256)"))
       | None => Returned tt
       end;
     socket_socket := socket_socket w;
     socket_bind := socket_bind w;
     socket_sendto := socket_sendto w;
     socket_settimeout := socket_settimeout w;
     socket_recvfrom := socket_recvfrom w |}.

(** The datagrams a trace hands to [sendto], in order, each with its
    destination and the outcome of the call. *)
Definition sent (t : list event) : list (bytes * address * result unit) :=
  omap (fun ev =>
          match ev with
          | ev_sendto packet to r => Some (packet, to, r)
          | _ => None
          end) t.

(** The calls [connect] makes when it succeeds on a session [self]. *)
Definition connect_calls (self : TecomatRTC) : list event :=
  match sock self with
  | Some _ => []
  | None => [ev_socket (Returned tt); ev_bind (local_port self) (Returned tt)]
  end.

(** ** The command line and the calendar *)

(** The character of a one-character string literal. *)
Definition char (s : string) : Ascii.ascii :=
  match s with
  | String c _ => c
  | EmptyString => Ascii.zero
  end.

(** [s.split(sep)] for a separator [sep] of one character: the pieces of [s]
    between the occurrences of [sep]; one piece more than occurrences. *)
Fixpoint str_split (sep : Ascii.ascii) (s : string) : list string :=
  match s with
  | EmptyString => [""]
  | String c s' =>
      if Ascii.eqb c sep then "" :: str_split sep s'
      else match str_split sep s' with
           | piece :: pieces => String c piece :: pieces
           | [] => [String c ""]
           end
  end.

(** The calendar of Python's [datetime] module. *)
Definition _is_leap (year : Z) : bool :=
  (year mod 4 =? 0) && (negb (year mod 100 =? 0) || (year mod 400 =? 0)).

Definition _days_in_month (year month : Z) : Z :=
  if (month =? 2) && _is_leap year then 29
  else nth (Z.to_nat month) [-1; 31; 28; 31; 30; 31; 30; 31; 31; 30; 31; 30; 31] 0.

Definition _days_before_year (year : Z) : Z :=
  let y := year - 1 in
  y * 365 + y / 4 - y / 100 + y / 400.

Definition _days_before_month (year month : Z) : Z :=
  nth (Z.to_nat month)
      [-1; 0; 31; 59; 90; 120; 151; 181; 212; 243; 273; 304; 334] 0
  + (if (2 <? month) && _is_leap year then 1 else 0).

Definition _ymd2ord (year month day : Z) : Z :=
  _days_before_year year + _days_before_month year month + day.

(** [datetime(year, month, day, hour, minute, second)]: the fields are
    checked in this order, against the calendar for the day; [weekday()] of
    the result is [(toordinal() + 6) % 7]. *)
Definition new_datetime (year month day hour minute second : Z) :
    result datetime.t :=
  if negb ((1 <=? year) && (year <=? 9999)) then
    Raised (ValueError ("year " +:+ pretty year +:+ " is out of range"))
  else if negb ((1 <=? month) && (month <=? 12)) then
    Raised (ValueError "month must be in 1..12")
  else if negb ((1 <=? day) && (day <=? _days_in_month year month)) then
    Raised (ValueError "day is out of range for month")
  else if negb ((0 <=? hour) && (hour <=? 23)) then
    Raised (ValueError "hour must be in 0..23")
  else if negb ((0 <=? minute) && (minute <=? 59)) then
    Raised (ValueError "minute must be in 0..59")
  else if negb ((0 <=? second) && (second <=? 59)) then
    Raised (ValueError "second must be in 0..59")
  else
    Returned (datetime.make year month day hour minute second 0
                ((_ymd2ord year month day + 6) mod 7)).

(** The [Namespace] of the parsed command line. *)
Module args.
Record t : Type := make {
  time : option string;
  date : option string;
  ip : string;
  port : Z;
  local_port : Z;
  timezone_offset : Z;
  no_offset : bool;
  no_verify : bool;
  timeout : Q
}.
End args.

(** How the call [parse_arguments()] ends: it returns the [Namespace], or
    [argparse] leaves the program with [sys.exit(code)], code 2 for a command
    line it rejects and 0 after [--help]. *)
Inductive parsed : Type :=
  | Namespace (a : args.t)
  | SystemExit (code : Z).

(** Truth value of an optional string argument: [None] and [''] are false. *)
Definition given (arg : option string) : bool :=
  match arg with
  | Some s => negb (String.eqb s "")
  | None => false
  end.

(** How [main] ends: with [sys.exit(code)], or with an exception that none
    of its handlers catches. *)
Inductive ending : Type :=
  | sys_exit (code : Z)
  | uncaught (e : exception).

(** [isinstance(e, ValueError)] and [isinstance(e, KeyboardInterrupt)]. *)
Definition is_ValueError (e : exception) : bool :=
  match e with
  | ValueError _ | UnicodeEncodeError _ => true
  | _ => false
  end.

Definition is_KeyboardInterrupt (e : exception) : bool :=
  match e with
  | KeyboardInterrupt => true
  | _ => false
  end.

(** [str(e)] for an exception raised with one string argument. *)
Definition str_of (e : exception) : string :=
  match e with
  | ValueError msg | UnicodeEncodeError msg | OverflowError msg
  | AttributeError msg | OSError msg => msg
  | KeyError key => "'" +:+ key +:+ "'"
  | socket_timeout => "timed out"
  | KeyboardInterrupt => ""
  end.

(** [try: body / except <class> as e: raise ValueError(message e)] on
    results. *)
Definition reraise {A} (body : result A) (catches : exception -> bool)
    (message : exception -> string) : result A :=
  match body with
  | Raised e => if catches e then Raised (ValueError (message e)) else Raised e
  | r => r
  end.

Section CommandLine.
(** Python's [int(s)] on a string. *)
Variable int : string -> result Z.

(** The handlers of the two parsers name [(ValueError, IndexError)]; no
    operation of the model raises an [IndexError]. *)
Definition parse_time_string (time_str : string) : result (Z * Z * Z) :=
  reraise
    (let parts := str_split (char ":") time_str in
     if negb (Z.of_nat (length parts) =? 3) then
       Raised (ValueError "Time must be in format HH:MM:SS")
     else
       hour ← int (nth 0 parts "");
       minute ← int (nth 1 parts "");
       second ← int (nth 2 parts "");
       if negb ((0 <=? hour) && (hour <=? 23)) then
         Raised (ValueError ("Hour must be 0-23, got " +:+ pretty hour))
       else if negb ((0 <=? minute) && (minute <=? 59)) then
         Raised (ValueError ("Minute must be 0-59, got " +:+ pretty minute))
       else if negb ((0 <=? second) && (second <=? 59)) then
         Raised (ValueError ("Second must be 0-59, got " +:+ pretty second))
       else
         mret (hour, minute, second))
    is_ValueError
    (fun e => "Invalid time format '" +:+ time_str +:+ "': " +:+ str_of e).

Definition parse_date_string (date_str : string) : result (Z * Z * Z) :=
  reraise
    (let parts := str_split (char "-") date_str in
     if negb (Z.of_nat (length parts) =? 3) then
       Raised (ValueError "Date must be in format YYYY-MM-DD")
     else
       year ← int (nth 0 parts "");
       month ← int (nth 1 parts "");
       day ← int (nth 2 parts "");
       if negb ((2000 <=? year) && (year <=? 2099)) then
         Raised (ValueError ("Year must be 2000-2099, got " +:+ pretty year))
       else if negb ((1 <=? month) && (month <=? 12)) then
         Raised (ValueError ("Month must be 1-12, got " +:+ pretty month))
       else if negb ((1 <=? day) && (day <=? 31)) then
         Raised (ValueError ("Day must be 1-31, got " +:+ pretty day))
       else
         new_datetime year month day 0 0 0;;
         mret (year, month, day))
    is_ValueError
    (fun e => "Invalid date format '" +:+ date_str +:+ "': " +:+ str_of e).

(** The first [try] block of [main]: the target [datetime]. *)
Definition main_target (a : args.t) (w : world) : result datetime.t :=
  if given (args.time a) || given (args.date a) then
    let now := datetime_now w in
    '(year, month, day) ←
      (if given (args.date a) then parse_date_string (default "" (args.date a))
       else mret (datetime.year now, datetime.month now, datetime.day now));
    '(hour, minute, second) ←
      (if given (args.time a) then parse_time_string (default "" (args.time a))
       else mret (datetime.hour now, datetime.minute now, datetime.second now));
    target_dt ← new_datetime year month day hour minute second;
    first_failure w [478];;
    mret target_dt
  else
    let target_dt := datetime_now w in
    first_failure w [482];;
    mret target_dt.

(** The [try] block of the second [try] statement of [main] with its two
    [except] clauses, run on the updater.  A call of [sys.exit(code)] ends
    the block it is in with the value [code]: neither clause catches it. *)
Definition main_update (a : args.t) (target_dt : datetime.t) : M Z :=
  let tz_offset := if args.no_offset a then 0 else args.timezone_offset a in
  try_except2
    (print [495; 496; 497; 498; 499];;
     (if negb (tz_offset =? 0) then
        add_hours target_dt tz_offset;;
        print [502; 503]
      else print [505]);;
     print [506; 507];;
     success ← set_rtc (Some target_dt) tz_offset (args.timeout a)
                 (negb (args.no_verify a));
     if success : bool then
       print [518; 519; 520];;
       mret 0
     else
       print [523; 524; 525; 526; 527; 528; 529; 530; 531];;
       mret 1)
    is_KeyboardInterrupt (fun _ => print [535];; mret 130)
    is_Exception (fun _ => print [538; 540];; mret 1).

(** The second [try] statement of [main]: its [finally] clause closes the
    updater, also after a [sys.exit]. *)
Definition main_session (a : args.t) (target_dt : datetime.t) : M Z :=
  try_finally (main_update a target_dt) close.

(** [main()], given how [parse_arguments()] ends.  It ends with the exit
    code or an exception, the updater object if it was created, and the
    socket calls made. *)
Definition main (parse_arguments : parsed) (w : world) :
    ending * option TecomatRTC * list event :=
  match parse_arguments with
  | SystemExit code => (sys_exit code, None, [])
  | Namespace a =>
      match main_target a w with
      | Raised e =>
          if is_ValueError e then
            match first_failure w [485] with
            | Returned _ => (sys_exit 1, None, [])
            | Raised e' => (uncaught e', None, [])
            end
          else (uncaught e, None, [])
      | Returned target_dt =>
          let rtc := __init__ (args.ip a) (args.port a) (args.local_port a) in
          match main_session a target_dt w rtc with
          | (Returned code, rtc, t) => (sys_exit code, Some rtc, t)
          | (Raised e, rtc, t) => (uncaught e, Some rtc, t)
          end
      end
  end.
End CommandLine.

(** What a run of [main] leaves behind. *)
Definition ended (run : ending * option TecomatRTC * list event) : ending :=
  run.1.1.
Definition updater (run : ending * option TecomatRTC * list event) :
    option TecomatRTC :=
  run.1.2.
Definition main_calls (run : ending * option TecomatRTC * list event) :
    list event :=
  run.2.

(** ** The periodic update *)

(** How the loop of [periodic_update] stands after some rounds: an exception
    raised in the world of some round has ended it, or it is still running. *)
Inductive loop : Type :=
  | ended_by (w : world) (e : exception)
  | running.

(** The rounds of [while True]: each round has its own world for [set_rtc]
    and an outcome of [time.sleep(interval)]. *)
Fixpoint periodic_loop (timezone_offset : Z)
    (rounds : list (world * result unit)) (self : TecomatRTC) :
    loop * TecomatRTC * list event :=
  match rounds with
  | [] => (running, self, [])
  | (w, slept) :: rounds' =>
      match set_rtc None timezone_offset 2 true w self with
      | (Raised e, self, t) => (ended_by w e, self, t)
      | (Returned _, self, t) =>
          match slept with
          | Raised e => (ended_by w e, self, t)
          | Returned _ =>
              match periodic_loop timezone_offset rounds' self with
              | (l, self, t') => (l, self, t ++ t')
              end
          end
      end
  end.

(** [periodic_update(interval, timezone_offset)] over the given rounds, in
    the world [start] for its first two console statements: [None] while the
    loop is still running after the rounds; otherwise the
    [except KeyboardInterrupt] and [finally] clauses have run, in the world
    of the round that ended the loop. *)
Definition periodic_update (timezone_offset : Z) (start : world)
    (rounds : list (world * result unit)) (self : TecomatRTC) :
    option (result unit) * TecomatRTC * list event :=
  match first_failure start [285; 286] with
  | Raised e => (Some (Raised e), self, [])
  | Returned _ =>
      match periodic_loop timezone_offset rounds self with
      | (running, self, t) => (None, self, t)
      | (ended_by w e, self, t) =>
          match try_finally
                  (try_except (lift (Raised e)) is_KeyboardInterrupt
                     (fun _ => print [293]))
                  close w self with
          | (r, self, t') => (Some r, self, t ++ t')
          end
      end
  end.

(** The number of sockets a trace has created. *)
Definition sockets_created (t : list event) : nat :=
  length (omap (fun ev =>
                  match ev with
                  | ev_socket (Returned _) => Some tt
                  | _ => None
                  end) t).

(** The number of occurrences of a character in a string. *)
Fixpoint occurrences (c : Ascii.ascii) (s : string) : nat :=
  match s with
  | EmptyString => 0
  | String c' s' => (if Ascii.eqb c' c then 1 else 0) + occurrences c s'
  end.

(** Every failure of [int] is a [ValueError], as it is for Python's [int] on
    a string. *)
Definition raises_only_ValueError (int : string -> result Z) : Prop :=
  forall s e, int s = Raised e -> is_ValueError e = true.

(** A round in which [set_rtc] returns and [time.sleep] returns: the world
    raises nothing but [Exception]s, the timezone adjustment of its clock's
    reading succeeds and is printed, the console statements of the handler
    of [set_rtc] return and the sleep is not interrupted. *)
Definition round_returns (timezone_offset : Z)
    (round : world * result unit) : Prop :=
  raises_only_Exception round.1 /\
  (exists dt', target round.1 None timezone_offset = Returned dt') /\
  adjustment_printed round.1 timezone_offset /\
  handler_printed round.1 /\
  round.2 = Returned tt.

(** ** Sample command lines *)

(** A stand-in for [int]: it agrees with [int] on strings of ASCII digits
    and rejects every other string, some of which [int] accepts (blanks
    around the digits, a sign, underscores, digits of other scripts). *)
Fixpoint digits_value (acc : Z) (s : string) : option Z :=
  match s with
  | EmptyString => Some acc
  | String c s' =>
      let n := Z.of_nat (Ascii.nat_of_ascii c) in
      if (48 <=? n) && (n <=? 57) then digits_value (10 * acc + (n - 48)) s'
      else None
  end.

Definition int_digits (s : string) : result Z :=
  match s, digits_value 0 s with
  | String _ _, Some n => Returned n
  | _, _ =>
      Raised (ValueError
        ("invalid literal for int() with base 10: '" +:+ s +:+ "'"))
  end.

(** [--time 14:30:00 --date 2025-10-17] with the defaults for the rest. *)
Definition args_friday : args.t :=
  args.make (Some "14:30:00") (Some "2025-10-17") "192.168.11.50" 61682 64481
    0 false false 2.

(** [--date 2025-02-30]. *)
Definition args_february_30 : args.t :=
  args.make None (Some "2025-02-30") "192.168.11.50" 61682 64481
    0 false false 2.

(** [--time 14:30:00 --date 2025-10-17 --timezone-offset 100000000]: more
    than eleven thousand years ahead, past the last year of [datetime]. *)
Definition args_far_ahead : args.t :=
  args.make (Some "14:30:00") (Some "2025-10-17") "192.168.11.50" 61682 64481
    100000000 false false 2.

(** 2099-12-31 23:59:25, a Thursday: its data block sums to 261. *)
Definition new_years_eve : datetime.t := datetime.make 2099 12 31 23 59 25 0 3.

(** A world in which the local port is taken: [bind] fails. *)
Definition port_in_use : world :=
  {| datetime_now := friday;
     timedelta_add := timedelta_add plc_acks;
     console := fun _ => Returned tt;
     socket_socket := Returned tt;
     socket_bind := fun _ =>
       Raised (OSError "[Errno 98] Address already in use");
     socket_sendto := fun _ _ => Returned tt;
     socket_settimeout := fun _ => Returned tt;
     socket_recvfrom := fun _ => Returned (ack_reply, plc) |}.

(** ** The frame codec *)

Section Codec.
Variable self : TecomatRTC.

Lemma sum_cons x l : sum (x :: l) = x + sum l.
Proof.
  unfold sum. cbn [fold_left]. rewrite Z.add_0_l.
  revert x. induction l as [|y l IH]; intros x; cbn [fold_left]; [lia|].
  rewrite Z.add_0_l, (IH (x + y)), (IH y). lia.
Qed.

Lemma calculate_checksum_mod data_bytes :
  _calculate_checksum self data_bytes = (sum data_bytes - 0x20) mod 256.
Proof.
  unfold _calculate_checksum. change 0xFF with (Z.ones 8).
  rewrite Z.land_ones by lia. reflexivity.
Qed.

Lemma calculate_checksum_byte data_bytes :
  0 <= _calculate_checksum self data_bytes < 256.
Proof. rewrite calculate_checksum_mod. apply Z.mod_pos_bound. lia. Qed.

Lemma is_byte_true b : 0 <= b < 256 -> is_byte b = true.
Proof. intros Hb. unfold is_byte. apply andb_true_intro. split; lia. Qed.

Lemma range_check_passes lo v hi :
  lo <= v <= hi -> negb ((lo <=? v) && (v <=? hi)) = false.
Proof.
  intros Hv. apply negb_false_iff, andb_true_intro. split; lia.
Qed.

Lemma range_check_fails lo v hi :
  ~ lo <= v <= hi -> negb ((lo <=? v) && (v <=? hi)) = true.
Proof.
  intros Hv. apply negb_true_iff, andb_false_iff.
  destruct (Z.leb_spec lo v); [right|left; reflexivity]. lia.
Qed.

(** On a valid ClockValue the packet is the 24 bytes of the layout. *)
Lemma build_rtc_packet_valid dt :
  valid_ClockValue dt ->
  _build_rtc_packet self dt =
  Returned ([0x02; 0x01; 0x02; 0x00; 0x00; 0x11; 0x68; 0x0B; 0x0B; 0x68; 0x00; 0x7D]
            ++ [0x63] ++ data_block dt
            ++ [_calculate_checksum self (data_block dt); 0x16; 0x00]).
Proof.
  intros (Hy & Hmo & Hd & Hh & Hmi & Hs & Hw). unfold dow in Hw.
  unfold _build_rtc_packet.
  rewrite !range_check_passes by lia.
  unfold bytes_of, data_block, dow, DATA_LENGTH, RTC_COMMAND.
  cbn [app forallb].
  pose proof (calculate_checksum_byte
    [8; datetime.year dt - 2000; datetime.month dt; datetime.day dt;
     datetime.hour dt; datetime.minute dt; datetime.second dt;
     datetime.weekday dt + 1]) as Hc.
  rewrite !is_byte_true by lia. reflexivity.
Qed.

(** C1: for every valid ClockValue, [_build_rtc_packet] returns a frame of
    exactly 24 bytes: bytes 0-11 are the fixed header
    02 01 02 00 00 11 68 0B 0B 68 00 7D, byte 12 is 0x63, bytes 13-20 are
    [0x08, year-2000, month, day, hour, minute, second, dow], byte 21 is
    (sum of bytes 13..20 - 0x20) mod 256, and bytes 22-23 are 16 00. *)
Theorem build_rtc_packet_frame_layout dt :
  valid_ClockValue dt ->
  exists frame : bytes,
    _build_rtc_packet self dt = Returned frame /\
    length frame = 24%nat /\
    take 12 frame =
      [0x02; 0x01; 0x02; 0x00; 0x00; 0x11; 0x68; 0x0B; 0x0B; 0x68; 0x00; 0x7D] /\
    frame !! 12%nat = Some 0x63 /\
    take 8 (drop 13 frame) =
      [0x08; datetime.year dt - 2000; datetime.month dt; datetime.day dt;
       datetime.hour dt; datetime.minute dt; datetime.second dt; dow dt] /\
    frame !! 21%nat = Some ((sum (take 8 (drop 13 frame)) - 0x20) mod 256) /\
    drop 22 frame = [0x16; 0x00].
Proof.
  intros Hvalid. eexists. split; [apply build_rtc_packet_valid, Hvalid|].
  repeat split.
  change ((?h ++ [0x63] ++ data_block dt ++ ?t) !! 21%nat)
    with (Some (_calculate_checksum self (data_block dt))).
  rewrite calculate_checksum_mod. reflexivity.
Qed.

(** C3: for every ClockValue with at least one field outside its domain,
    [_build_rtc_packet] raises a ValueError whose message names the
    offending field, the first one in the order of the checks, and its
    value; it returns no bytes.  The ClockValue is that of a [datetime],
    whose [weekday()] is in 0..6: its day-of-week is in 1-7, and the field
    outside its domain is the year, the month, the day, the hour, the minute
    or the second. *)
Theorem build_rtc_packet_range_error dt :
  0 <= datetime.weekday dt <= 6 ->
  ~ valid_ClockValue dt ->
  exists f,
    ~ in_domain f (field_value f dt) /\
    (forall g, (rank g < rank f)%nat -> in_domain g (field_value g dt)) /\
    _build_rtc_packet self dt =
      Raised (ValueError (range_message f (field_value f dt))).
Proof.
  intros Hweekday Hbad. unfold _build_rtc_packet.
  destruct (decide (2000 <= datetime.year dt <= 2099)) as [Hy|Hy].
  2: { exists Year. split; [exact Hy|]. split; [intros []; cbn; lia|].
       rewrite range_check_fails by lia. reflexivity. }
  rewrite (range_check_passes 0 _ 99) by lia.
  destruct (decide (1 <= datetime.month dt <= 12)) as [Hmo|Hmo].
  2: { exists Month. split; [exact Hmo|]. split; [intros []; cbn; lia|].
       rewrite range_check_fails by lia. reflexivity. }
  rewrite (range_check_passes 1 _ 12) by lia.
  destruct (decide (1 <= datetime.day dt <= 31)) as [Hd|Hd].
  2: { exists Day. split; [exact Hd|]. split; [intros []; cbn; lia|].
       rewrite range_check_fails by lia. reflexivity. }
  rewrite (range_check_passes 1 _ 31) by lia.
  destruct (decide (0 <= datetime.hour dt <= 23)) as [Hh|Hh].
  2: { exists Hour. split; [exact Hh|]. split; [intros []; cbn; lia|].
       rewrite range_check_fails by lia. reflexivity. }
  rewrite (range_check_passes 0 _ 23) by lia.
  destruct (decide (0 <= datetime.minute dt <= 59)) as [Hmi|Hmi].
  2: { exists Minute. split; [exact Hmi|]. split; [intros []; cbn; lia|].
       rewrite range_check_fails by lia. reflexivity. }
  rewrite (range_check_passes 0 (datetime.minute dt) 59) by lia.
  destruct (decide (0 <= datetime.second dt <= 59)) as [Hs|Hs].
  2: { exists Second. split; [exact Hs|]. split; [intros []; cbn; lia|].
       rewrite range_check_fails by lia. reflexivity. }
  exfalso. apply Hbad. unfold valid_ClockValue, dow. lia.
Qed.

(** C4: encoding 2025-10-17 14:30:00, Friday (dow 5), yields the data block
    [0x08, 25, 10, 17, 14, 30, 0, 5], the checksum 0x4D and the frame
    02 01 02 00 00 11 68 0B 0B 68 00 7D 63 08 19 0A 11 0E 1E 00 05 4D 16 00. *)
Theorem build_rtc_packet_friday :
  data_block friday = [0x08; 25; 10; 17; 14; 30; 0; 5] /\
  _calculate_checksum self (data_block friday) = 0x4D /\
  _build_rtc_packet self friday =
    Returned [0x02; 0x01; 0x02; 0x00; 0x00; 0x11; 0x68; 0x0B; 0x0B; 0x68; 0x00;
              0x7D; 0x63; 0x08; 0x19; 0x0A; 0x11; 0x0E; 0x1E; 0x00; 0x05; 0x4D;
              0x16; 0x00].
Proof. repeat split. Qed.

(** C5: for every valid ClockValue the checksum byte of the frame is
    exactly (sum of the 8 data-block bytes - 0x20) mod 256, a value in
    0..255; [_calculate_checksum] is that function on every list, also when
    the sum is below 0x20: the minimal block [0x08,0,1,1,0,0,0,1] sums to 11
    and has checksum 235. *)
Theorem checksum_is_exact_mod_256 dt :
  valid_ClockValue dt ->
  (forall data_bytes,
     _calculate_checksum self data_bytes = (sum data_bytes - 0x20) mod 256 /\
     0 <= _calculate_checksum self data_bytes < 256) /\
  (sum [0x08; 0; 1; 1; 0; 0; 0; 1] = 11 /\
   _calculate_checksum self [0x08; 0; 1; 1; 0; 0; 0; 1] = 235) /\
  exists frame : bytes,
    _build_rtc_packet self dt = Returned frame /\
    frame !! 21%nat = Some ((sum (data_block dt) - 0x20) mod 256) /\
    take 8 (drop 13 frame) = data_block dt.
Proof.
  intros Hvalid. split; [|split].
  - intros data_bytes. split.
    + apply calculate_checksum_mod.
    + apply calculate_checksum_byte.
  - split; reflexivity.
  - eexists. split; [apply build_rtc_packet_valid, Hvalid|]. split.
    + rewrite <- calculate_checksum_mod. reflexivity.
    + reflexivity.
Qed.

(** C8: the day is validated against 1-31 only, never against the month
    or the year: when the other fields are in range, [_build_rtc_packet]
    returns the frame that carries the day for every day in 1-31, whatever
    the month and the year, and raises the ValueError that names the day
    for every other day. *)
Theorem build_rtc_packet_day_not_calendar_checked dt :
  2000 <= datetime.year dt <= 2099 ->
  1 <= datetime.month dt <= 12 ->
  0 <= datetime.hour dt <= 23 ->
  0 <= datetime.minute dt <= 59 ->
  0 <= datetime.second dt <= 59 ->
  1 <= dow dt <= 7 ->
  (1 <= datetime.day dt <= 31 ->
   _build_rtc_packet self dt =
     Returned [0x02; 0x01; 0x02; 0x00; 0x00; 0x11; 0x68; 0x0B; 0x0B; 0x68; 0x00;
               0x7D; 0x63; 0x08; datetime.year dt - 2000; datetime.month dt;
               datetime.day dt; datetime.hour dt; datetime.minute dt;
               datetime.second dt; dow dt;
               (sum (data_block dt) - 0x20) mod 256; 0x16; 0x00]) /\
  (~ 1 <= datetime.day dt <= 31 ->
   _build_rtc_packet self dt =
     Raised (ValueError ("Day out of range: " +:+ pretty (datetime.day dt)))).
Proof.
  intros Hy Hmo Hh Hmi Hs Hw. split; intros Hd.
  - rewrite build_rtc_packet_valid by (unfold valid_ClockValue; tauto).
    rewrite calculate_checksum_mod. reflexivity.
  - unfold _build_rtc_packet.
    rewrite (range_check_passes 0 _ 99), (range_check_passes 1 _ 12),
      (range_check_fails 1 _ 31) by lia.
    reflexivity.
Qed.

(** A returned frame is long enough for its fields to be printed. *)
Lemma build_rtc_packet_long dt (frame : bytes) :
  _build_rtc_packet self dt = Returned frame -> (21 <=? len frame) = true.
Proof.
  unfold _build_rtc_packet, bytes_of.
  repeat case_match; intros; simplify_eq; reflexivity.
Qed.

(** [_build_rtc_packet] computes [frame_of_fields]. *)
Lemma build_rtc_packet_frame_of_fields dt :
  _build_rtc_packet self dt =
  frame_of_fields (datetime.year dt) (datetime.month dt) (datetime.day dt)
    (datetime.hour dt) (datetime.minute dt) (datetime.second dt) (dow dt).
Proof.
  unfold frame_of_fields, _build_rtc_packet.
  destruct (decide (2000 <= datetime.year dt <= 2099)) as [Hy|Hy].
  2: { rewrite range_check_fails, bool_decide_true by lia. reflexivity. }
  rewrite (range_check_passes 0 _ 99), bool_decide_false by lia.
  destruct (decide (1 <= datetime.month dt <= 12)) as [Hmo|Hmo].
  2: { rewrite range_check_fails, bool_decide_true by lia. reflexivity. }
  rewrite (range_check_passes 1 _ 12), bool_decide_false by lia.
  destruct (decide (1 <= datetime.day dt <= 31)) as [Hd|Hd].
  2: { rewrite range_check_fails, bool_decide_true by lia. reflexivity. }
  rewrite (range_check_passes 1 _ 31), bool_decide_false by lia.
  destruct (decide (0 <= datetime.hour dt <= 23)) as [Hh|Hh].
  2: { rewrite range_check_fails, bool_decide_true by lia. reflexivity. }
  rewrite (range_check_passes 0 _ 23), bool_decide_false by lia.
  destruct (decide (0 <= datetime.minute dt <= 59)) as [Hmi|Hmi].
  2: { rewrite range_check_fails, bool_decide_true by lia. reflexivity. }
  rewrite (range_check_passes 0 (datetime.minute dt) 59), bool_decide_false
    by lia.
  destruct (decide (0 <= datetime.second dt <= 59)) as [Hs|Hs].
  2: { rewrite range_check_fails, bool_decide_true by lia. reflexivity. }
  rewrite (range_check_passes 0 (datetime.second dt) 59), bool_decide_false
    by lia.
  rewrite calculate_checksum_mod.
  pose proof (Z.mod_pos_bound
    (sum [DATA_LENGTH; datetime.year dt - 2000; datetime.month dt;
          datetime.day dt; datetime.hour dt; datetime.minute dt;
          datetime.second dt; datetime.weekday dt + 1] - 32) 256) as Hc.
  assert (sum [DATA_LENGTH; datetime.year dt - 2000; datetime.month dt;
               datetime.day dt; datetime.hour dt; datetime.minute dt;
               datetime.second dt; datetime.weekday dt + 1] =
          8 + (datetime.year dt - 2000) + datetime.month dt + datetime.day dt
          + datetime.hour dt + datetime.minute dt + datetime.second dt
          + dow dt) as Hsum.
  { unfold dow, DATA_LENGTH. rewrite !sum_cons. unfold sum. cbn. lia. }
  rewrite Hsum in *. unfold bytes_of, DATA_LENGTH, RTC_COMMAND, dow in *.
  cbn [app forallb].
  rewrite !(is_byte_true 8), !(is_byte_true 2), !(is_byte_true 1),
    !(is_byte_true 0), (is_byte_true 17), (is_byte_true 104),
    (is_byte_true 11), (is_byte_true 125), (is_byte_true 99),
    (is_byte_true 22), (is_byte_true (datetime.year dt - 2000)),
    (is_byte_true (datetime.month dt)), (is_byte_true (datetime.day dt)),
    (is_byte_true (datetime.hour dt)), (is_byte_true (datetime.minute dt)),
    (is_byte_true (datetime.second dt)), (is_byte_true (_ mod 256)) by lia.
  cbn [andb].
  destruct (decide (0 <= datetime.weekday dt + 1 < 256)) as [Hw|Hw].
  - rewrite is_byte_true, bool_decide_true by lia. reflexivity.
  - rewrite bool_decide_false by lia.
    assert (is_byte (datetime.weekday dt + 1) = false) as ->
      by (unfold is_byte; lia).
    reflexivity.
Qed.
End Codec.

(** C7: [_build_rtc_packet] is deterministic: its result is the function
    [frame_of_fields] of the seven ClockValue fields and of nothing else, so
    that two calls on clock values with the same seven fields end the same
    way, with the same frame or the same error, whatever the state of the
    objects they are called on and whatever else the [datetime]s carry. *)
Theorem build_rtc_packet_deterministic self1 self2 dt1 dt2 :
  datetime.year dt1 = datetime.year dt2 ->
  datetime.month dt1 = datetime.month dt2 ->
  datetime.day dt1 = datetime.day dt2 ->
  datetime.hour dt1 = datetime.hour dt2 ->
  datetime.minute dt1 = datetime.minute dt2 ->
  datetime.second dt1 = datetime.second dt2 ->
  dow dt1 = dow dt2 ->
  _build_rtc_packet self1 dt1 =
    frame_of_fields (datetime.year dt1) (datetime.month dt1) (datetime.day dt1)
      (datetime.hour dt1) (datetime.minute dt1) (datetime.second dt1)
      (dow dt1) /\
  _build_rtc_packet self2 dt2 = _build_rtc_packet self1 dt1.
Proof.
  intros Hy Hmo Hd Hh Hmi Hs Hw.
  rewrite !build_rtc_packet_frame_of_fields, Hy, Hmo, Hd, Hh, Hmi, Hs, Hw.
  split; reflexivity.
Qed.

Section Decode.
Variable self : TecomatRTC.

Lemma contains_elem_of (b : bytes) x : contains b x = true <-> x ∈ b.
Proof.
  unfold contains. induction b as [|y b IH]; cbn [existsb].
  - split; [discriminate|]. intros Hx. inversion Hx.
  - rewrite orb_true_iff, IH, elem_of_cons, Z.eqb_eq. reflexivity.
Qed.

Lemma index_first_occurrence (b : bytes) x :
  x ∈ b ->
  exists i, index b x = Returned (Z.of_nat i) /\ first_occurrence x b i.
Proof.
  induction b as [|y b IH]; intros Hx; [inversion Hx|].
  cbn [index]. destruct (Z.eqb_spec y x) as [->|Hne].
  - exists 0%nat. repeat split. intros j Hj. lia.
  - apply elem_of_cons in Hx as [Hx|Hx]; [congruence|].
    destruct (IH Hx) as (i & Hi & Hfound & Hbefore).
    exists (S i). rewrite Hi. split; [cbn; f_equal; lia|].
    split; [exact Hfound|].
    intros [|j] Hj; cbn; [congruence|]. apply Hbefore. lia.
Qed.

Example parse_response_short_with_marker :
  exists d : dict,
    _parse_response self [0x02; 0xE5; 0x02] = Returned d /\
    Rejected_too_short d 3.
Proof. eexists. split; [reflexivity|]. split; reflexivity. Qed.

(** C2: [_parse_response] returns on every buffer, and its result is
    determined by three cases: a buffer of fewer than 6 bytes is rejected
    as too short, with the byte count in the error, whatever it contains;
    a longer buffer in which 0xE5 occurs is acknowledged, with the
    zero-based index of the first 0xE5; a longer buffer without 0xE5 is
    rejected as carrying no ACK marker. *)
Theorem parse_response_characterised (response : bytes) :
  exists d : dict,
    _parse_response self response = Returned d /\
    ((length response < 6)%nat -> Rejected_too_short d (len response)) /\
    ((6 <= length response)%nat -> 0xE5 ∈ response ->
       exists i, first_occurrence 0xE5 response i /\
                 Acknowledged d (Z.of_nat i)) /\
    ((6 <= length response)%nat -> 0xE5 ∉ response ->
       Rejected_no_ACK_marker_found d).
Proof.
  unfold _parse_response, len.
  destruct (Z.ltb_spec (Z.of_nat (length response)) 6) as [Hlen|Hlen].
  - eexists. split; [reflexivity|]. split; [|split]; try (intros; lia).
    intros _. split; reflexivity.
  - destruct (contains response 0xE5) eqn:Hin.
    + apply contains_elem_of in Hin.
      destruct (index_first_occurrence _ _ Hin) as (i & Hi & Hfirst).
      rewrite Hi. eexists. split; [reflexivity|].
      split; [intros; lia|]. split.
      * intros _ _. exists i. split; [exact Hfirst|]. split; reflexivity.
      * intros _ Hnot. contradiction.
    + eexists. split; [reflexivity|]. split; [intros; lia|]. split.
      * intros _ Hin'. apply contains_elem_of in Hin'. congruence.
      * intros _ _. split; reflexivity.
Qed.
End Decode.

(** ** The transport session *)

Section Session.
Variable w : world.

Lemma parse_response_self self1 self2 response :
  _parse_response self1 response = _parse_response self2 response.
Proof. reflexivity. Qed.

Lemma build_rtc_packet_self self1 self2 dt :
  _build_rtc_packet self1 dt = _build_rtc_packet self2 dt.
Proof. reflexivity. Qed.

Lemma parse_response_success self response :
  exists d : dict,
    _parse_response self response = Returned d /\
    ((exists position, Acknowledged d position) /\
     getitem d "success" = Returned (VBool true) /\
     (exists v, getitem d "payload" = Returned v) /\
     bool_decide (is_Some (d !! "e5_position")) = true
     \/
     (Rejected_too_short d (len response) \/ Rejected_no_ACK_marker_found d) /\
     getitem d "success" = Returned (VBool false) /\
     (exists v, getitem d "error" = Returned v)).
Proof.
  unfold _parse_response.
  destruct (len response <? 6).
  - eexists. split; [reflexivity|]. right.
    split; [left; split; reflexivity|]. split; [reflexivity|].
    eexists. reflexivity.
  - destruct (contains response 0xE5) eqn:Hin.
    + apply contains_elem_of in Hin.
      destruct (index_first_occurrence _ _ Hin) as (i & Hi & _).
      rewrite Hi. eexists. split; [reflexivity|]. left.
      split; [eexists; split; reflexivity|]. split; [reflexivity|].
      split; [eexists; reflexivity|reflexivity].
    + eexists. split; [reflexivity|]. right.
      split; [right; split; reflexivity|]. split; [reflexivity|].
      eexists. reflexivity.
Qed.

Lemma Acknowledged_not_Rejected (d : dict) position count :
  Acknowledged d position ->
  Rejected_too_short d count \/ Rejected_no_ACK_marker_found d -> False.
Proof. intros [Hs _] [[Hs' _]|[Hs' _]]; congruence. Qed.

Lemma build_rtc_packet_raises self dt e :
  _build_rtc_packet self dt = Raised e -> is_Exception e = true.
Proof.
  unfold _build_rtc_packet, bytes_of.
  repeat case_match; intros; simplify_eq; reflexivity.
Qed.

Lemma first_failure_works lines :
  console_works w -> first_failure w lines = Returned tt.
Proof.
  intros Hconsole. induction lines as [|line lines IH]; [reflexivity|].
  cbn [first_failure]. rewrite Hconsole. exact IH.
Qed.

Lemma first_failure_raises lines e :
  (forall line e, console w line = Raised e -> is_Exception e = true) ->
  first_failure w lines = Raised e -> is_Exception e = true.
Proof.
  intros Hconsole. induction lines as [|line lines IH]; [discriminate|].
  cbn [first_failure]. destruct (console w line) as [[]|e'] eqn:Hline.
  - exact IH.
  - intros H. injection H as <-. apply (Hconsole line), Hline.
Qed.

Local Arguments first_failure : simpl never.

Lemma close_closed self :
  sock self = None -> close w self = (Returned tt, self, []).
Proof. destruct self; cbn; intros ->. reflexivity. Qed.

(** What [close] leaves: no socket; it has made the one call [close] if
    there was a socket; it raises what its console statement raises. *)
Lemma close_run self :
  sock (final (close w self)) = None /\
  plc_ip (final (close w self)) = plc_ip self /\
  plc_port (final (close w self)) = plc_port self /\
  local_port (final (close w self)) = local_port self /\
  calls (close w self) = match sock self with
                         | Some _ => [ev_close]
                         | None => []
                         end /\
  outcome (close w self) = match sock self with
                           | Some _ => first_failure w [148]
                           | None => Returned tt
                           end.
Proof.
  destruct self as [? ? ? [?|]]; [|repeat split].
  unfold close, sock_close, on_sock, print, get_self, set_sock, mbind, M_bind.
  cbn. destruct (first_failure w [148]) as [[]|?]; repeat split.
Qed.

(** C9: [close] is idempotent: on a closed session it is a no-op that
    makes no socket call, a session is closed after [close], and [close]
    followed by [close] leaves exactly what a single [close] leaves. *)
Theorem close_idempotent self :
  (sock self = None -> close w self = (Returned tt, self, [])) /\
  close w (final (close w self)) = (Returned tt, final (close w self), []) /\
  (close;; close) w self = close w self /\
  sock (final (close w self)) = None.
Proof.
  split; [apply close_closed|].
  destruct self as [ip port lport [s|]]; [|repeat split].
  unfold close, sock_close, on_sock, print, get_self, set_sock, mbind, M_bind,
    final.
  cbn. destruct (first_failure w [148]) as [[]|?]; repeat split.
Qed.

(** Proofs about [set_rtc] follow the program: [session_run] unfolds the
    methods, [session_step] splits on the outcome of the next call in program
    order, [trace_inv] inverts membership in a trace that has become
    explicit. *)
Ltac session_run :=
  unfold set_rtc, target, outcome, calls, connect, sendto, settimeout,
    recvfrom, bind, new_socket, on_sock, now, add_hours, try_except, lift,
    print, get_self, set_sock, mbind, mret, M_bind, M_ret, result_bind,
    result_ret in *;
  cbn in *.

Ltac session_split x :=
  lazymatch x with
  | timedelta_add _ _ _ => destruct x eqn:?
  | first_failure ?w ?lines =>
      first [ rewrite (first_failure_works lines) by assumption
            | destruct x as [[]|?] eqn:? ]
  | socket_socket _ => destruct x as [[]|?] eqn:?
  | socket_bind _ _ => destruct x as [[]|?] eqn:?
  | socket_sendto _ _ _ => destruct x as [[]|?] eqn:?
  | socket_settimeout _ _ => destruct x as [[]|?] eqn:?
  | socket_recvfrom _ _ => destruct x as [[? ?]|?] eqn:?
  | is_socket_timeout _ => destruct x eqn:?
  | is_Exception _ => destruct x eqn:?
  | _build_rtc_packet ?s ?d =>
      let Hb := fresh "Hbuilt" in
      rewrite (build_rtc_packet_self s rtc0 d);
      destruct (_build_rtc_packet rtc0 d) eqn:Hb;
      [rewrite (build_rtc_packet_long rtc0 _ _ Hb)|]
  | _parse_response ?s ?r =>
      let d := fresh "d" in
      let Hd := fresh "Hd" in
      let Hs := fresh "Hsuccess" in
      let Hv := fresh "Hv" in
      let Hk := fresh "Hkind" in
      let Hp := fresh "Hposition" in
      rewrite (parse_response_self s rtc0 r);
      destruct (parse_response_success rtc0 r)
        as (d & Hd & [(Hk & Hs & (? & Hv) & Hp)|(Hk & Hs & (? & Hv))]);
      rewrite Hd; cbn; rewrite Hs; cbn; rewrite ?Hv; cbn; rewrite ?Hp
  end.

Ltac session_step :=
  match goal with
  | H : timedelta_add ?w ?d ?h = _ |- context [timedelta_add ?w ?d ?h] =>
      rewrite H
  | H : first_failure ?w ?lines = _ |- context [first_failure ?w ?lines] =>
      rewrite H
  | |- context [match ?x with _ => _ end] => session_split x
  end; cbn.

Ltac trace_inv :=
  repeat match goal with
  | H : _ ∈ [] |- _ => apply elem_of_nil in H; destruct H
  | H : _ ∈ _ :: _ |- _ =>
      apply elem_of_cons in H as [H|H]; [try discriminate H; simplify_eq|]
  end.

(** Without a [dt], [set_rtc] starts from the clock's reading: it is enough
    to follow the runs that are given one. *)
Ltac intro_n n :=
  lazymatch n with
  | O => idtac
  | S ?m => intro; intro_n m
  end.

Ltac given_dt_from dt n :=
  match goal with
  | H : context [dt] |- _ => revert H; given_dt_from dt (S n)
  | _ =>
      pattern dt;
      lazymatch goal with
      | |- ?G dt =>
          let Hsome := fresh "Hsome" in
          assert (forall d, G (Some d)) as Hsome;
          [ clear dt; intros ?; cbv beta; intro_n n
          | destruct dt as [d|];
            [exact (Hsome d)|exact (Hsome (datetime_now w))] ]
      end
  end.

Ltac given_dt dt := given_dt_from dt O.

Ltac session_cases self dt tz :=
  given_dt dt;
  destruct self as [? ? ? [?|]];
  session_run;
  destruct (Z.eqb_spec tz 0); cbn in *; simplify_eq;
  repeat match goal with
  | H : adjustment_printed _ _ |- _ =>
      first [ specialize (H ltac:(assumption)) | clear H ]
  end;
  repeat session_step.

(** Two decodings of one reply are the same [dict]. *)
Ltac same_dict :=
  repeat match goal with
  | H : _parse_response ?s ?r = Returned ?d |- _ =>
      lazymatch s with
      | rtc0 => fail
      | _ => change (_parse_response rtc0 r = Returned d) in H
      end
  end;
  repeat match goal with
  | H1 : _parse_response rtc0 ?r = Returned ?d1,
    H2 : _parse_response rtc0 ?r = Returned ?d2 |- _ =>
      assert (d2 = d1) by congruence; subst d2; clear H2
  end.

Ltac not_in_trace := let Hin := fresh "Hin" in intros Hin; trace_inv.

Ltac trace_mem :=
  apply list_elem_of_In; cbn [In]; repeat first [left; reflexivity|right].

(** The reply a leaf has received is the one that was decoded. *)
Ltac acknowledged :=
  match goal with
  | H : socket_recvfrom _ _ = Returned (?l, ?p),
    Hd : _parse_response rtc0 ?l = Returned ?d,
    Hk : exists position, Acknowledged ?d position |- _ =>
      let position := fresh "position" in
      let Hack := fresh "Hack" in
      destruct Hk as [position Hack];
      exists l, p; split; [trace_mem|];
      exists d, position; split; [exact Hd|exact Hack]
  end.

(** C6 (amended): provided the console statements of [set_rtc] return:
    with [verify] true, [set_rtc] returns true if and only if a reply was
    received and decoded as Acknowledged; on a reply decoded as Rejected
    and on a timeout it returns false; with [verify] false, after a
    successful send it returns true, the send being its last socket call.
    Whatever the console does, it returns true only after an Acknowledged
    reply when [verify] is true and only right after a successful send when
    [verify] is false, and without [verify] it never waits for a reply. *)
Theorem set_rtc_verify_semantics self dt timezone_offset timeout :
  let verified := set_rtc dt timezone_offset timeout true w self in
  let unverified := set_rtc dt timezone_offset timeout false w self in
  (outcome verified = Returned true ->
     exists response addr,
       ev_recvfrom 1024 (Returned (response, addr)) ∈ calls verified /\
       decoded_Acknowledged self response) /\
  (outcome unverified = Returned true ->
     exists packet to,
       last (calls unverified) = Some (ev_sendto packet to (Returned tt))) /\
  (forall bufsize r, ev_recvfrom bufsize r ∉ calls unverified) /\
  (console_works w ->
     ((exists response addr,
         ev_recvfrom 1024 (Returned (response, addr)) ∈ calls verified /\
         decoded_Acknowledged self response) ->
      outcome verified = Returned true) /\
     (forall response addr,
        ev_recvfrom 1024 (Returned (response, addr)) ∈ calls verified ->
        decoded_Rejected self response ->
        outcome verified = Returned false) /\
     (ev_recvfrom 1024 (Raised socket_timeout) ∈ calls verified ->
        outcome verified = Returned false) /\
     (forall packet to,
        ev_sendto packet to (Returned tt) ∈ calls unverified ->
        outcome unverified = Returned true /\
        last (calls unverified) = Some (ev_sendto packet to (Returned tt)))).
Proof.
  intros verified unverified. subst verified unverified.
  unfold decoded_Acknowledged, decoded_Rejected.
  split; [|split; [|split; [|intros Hconsole; split; [|split; [|split]]]]].
  - session_cases self dt timezone_offset.
    all: intros Htrue; try discriminate Htrue.
    all: acknowledged.
  - session_cases self dt timezone_offset.
    all: intros Htrue; try discriminate Htrue.
    all: eexists _, _; reflexivity.
  - intros bufsize r. session_cases self dt timezone_offset.
    all: not_in_trace.
  - session_cases self dt timezone_offset.
    all: intros (response & addr & Hin & d' & position & Hd' & Hack).
    all: trace_inv; same_dict.
    all: try reflexivity.
    all: destruct (Acknowledged_not_Rejected _ _ _ Hack Hkind).
  - session_cases self dt timezone_offset.
    all: intros response addr Hin (d' & Hd' & Hrej); trace_inv; same_dict.
    all: try reflexivity.
    all: destruct Hkind as [position Hack].
    all: destruct (Acknowledged_not_Rejected _ _ _ Hack Hrej).
  - session_cases self dt timezone_offset.
    all: intros Hin; trace_inv.
    all: try reflexivity.
    all: discriminate.
  - session_cases self dt timezone_offset.
    all: intros packet to Hin; trace_inv.
    all: split; reflexivity.
Qed.

(** Closes a leaf: the result is as claimed, or the exception that escaped
    is an [Exception] after all. *)
Ltac caught :=
  first
    [ reflexivity
    | congruence
    | by eauto
    | exfalso;
      match goal with
      | H : is_Exception ?e = false |- _ =>
          assert (is_Exception e = true)
            by eauto using build_rtc_packet_raises, first_failure_raises;
          congruence
      end ].

(** C10 (amended): [set_rtc] returns a bool when the timezone adjustment
    before the [try] block and its console statements succeed, every
    failure of a socket call or a console statement is an instance of
    [Exception] and the console statements of the handler return; a
    ValueError of [_build_rtc_packet], a failing [bind] and a failing
    [sendto] are then each turned into the result false.  These exceptions
    leave [set_rtc]: a failure of the timezone adjustment or of its console
    statements, which precede the [try] block; an exception of a socket
    call that is no [Exception]; and what the console statements of the
    handler raise, when they handle the failure of a socket call or the
    ValueError of [_build_rtc_packet]. *)
Theorem set_rtc_catches_every_Exception
    self dt timezone_offset timeout verify :
  let run := set_rtc dt timezone_offset timeout verify w self in
  (raises_only_Exception w ->
   adjustment_printed w timezone_offset ->
   handler_printed w ->
   forall dt',
     target w dt timezone_offset = Returned dt' ->
     (exists b, outcome run = Returned b) /\
     (forall e,
        _build_rtc_packet self dt' = Raised e -> outcome run = Returned false) /\
     (forall port e,
        ev_bind port (Raised e) ∈ calls run -> outcome run = Returned false) /\
     (forall packet to e,
        ev_sendto packet to (Raised e) ∈ calls run ->
        outcome run = Returned false)) /\
  (forall e,
     target w dt timezone_offset = Raised e -> outcome run = Raised e) /\
  (forall dt' e,
     target w dt timezone_offset = Returned dt' ->
     timezone_offset <> 0 ->
     first_failure w [218; 219; 220] = Raised e ->
     outcome run = Raised e) /\
  (forall ev e,
     last (calls run) = Some ev -> failure ev = Some e ->
     is_Exception e = false ->
     outcome run = Raised e) /\
  (forall ev e e',
     last (calls run) = Some ev -> failure ev = Some e ->
     is_Exception e = true -> is_socket_timeout e = false ->
     first_failure w [272; 274] = Raised e' ->
     outcome run = Raised e') /\
  (forall dt' e e',
     target w dt timezone_offset = Returned dt' ->
     adjustment_printed w timezone_offset ->
     connected w self ->
     _build_rtc_packet self dt' = Raised e ->
     first_failure w [272; 274] = Raised e' ->
     outcome run = Raised e').
Proof.
  intros run. subst run. split; [|split; [|split; [|split; [|split]]]].
  - intros (Hsocket & Hbind & Hsend & Htimeout & Hrecv & Hconsole) Hprinted
      Hhandler dt' Htarget.
    unfold handler_printed in Hhandler.
    split; [|split; [|split]].
    + destruct verify; session_cases self dt timezone_offset; caught.
    + intros e Hraised.
      rewrite (build_rtc_packet_self self rtc0) in Hraised.
      destruct verify; session_cases self dt timezone_offset; caught.
    + intros port e.
      destruct verify; session_cases self dt timezone_offset.
      all: intros Hin; trace_inv; caught.
    + intros packet to e.
      destruct verify; session_cases self dt timezone_offset.
      all: intros Hin; trace_inv; caught.
  - intros e Htarget.
    destruct verify; session_cases self dt timezone_offset; congruence.
  - intros dt' e Htarget Htz Hprint.
    destruct verify; session_cases self dt timezone_offset; congruence.
  - intros ev e.
    destruct verify; session_cases self dt timezone_offset.
    all: intros Hlast Hfailure Hno; cbn in Hlast; simplify_eq.
    all: cbn in Hfailure; simplify_eq.
    all: first [congruence|destruct e; discriminate].
  - intros ev e e'.
    destruct verify; session_cases self dt timezone_offset.
    all: intros Hlast Hfailure Hyes Hother Hprint; cbn in Hlast; simplify_eq.
    all: cbn in Hfailure; simplify_eq.
    all: first [congruence|destruct e; discriminate].
  - intros dt' e e' Htarget Hprinted Hconnected Hraised Hprint.
    rewrite (build_rtc_packet_self self rtc0) in Hraised.
    pose proof (build_rtc_packet_raises rtc0 dt' e Hraised) as He.
    destruct Hconnected as [[s Hs]|(Hs & Hb & Hp)].
    + destruct verify; session_cases self dt timezone_offset.
      all: first [discriminate Hs|congruence].
    + destruct verify; session_cases self dt timezone_offset.
      all: congruence.
Qed.

(** *** Further properties of [set_rtc] *)

Lemma set_rtc_no_connect_calls self s dt timezone_offset timeout verify :
  sock self = Some s ->
  let run := set_rtc dt timezone_offset timeout verify w self in
  (forall r, ev_socket r ∉ calls run) /\
  (forall port r, ev_bind port r ∉ calls run).
Proof.
  intros Hsock run. subst run.
  split; [intros r|intros port r].
  all: destruct verify; session_cases self dt timezone_offset.
  all: try discriminate Hsock.
  all: not_in_trace.
Qed.

(** X1: a session that holds a socket is reused: [set_rtc] neither creates
    a socket nor binds, whether or not the socket it holds is bound. *)
Theorem set_rtc_reuses_socket self s dt timezone_offset timeout verify :
  sock self = Some s ->
  let run := set_rtc dt timezone_offset timeout verify w self in
  (forall r, ev_socket r ∉ calls run) /\
  (forall port r, ev_bind port r ∉ calls run).
Proof.
  intros Hsock run. subst run.
  split; [intros r|intros port r].
  all: destruct verify; session_cases self dt timezone_offset.
  all: try discriminate Hsock.
  all: not_in_trace.
Qed.

Lemma set_rtc_failed_bind self e dt timezone_offset timeout verify dt' :
  sock self = None ->
  socket_socket w = Returned tt ->
  socket_bind w (local_port self) = Raised e ->
  is_Exception e = true ->
  target w dt timezone_offset = Returned dt' ->
  adjustment_printed w timezone_offset ->
  let run := set_rtc dt timezone_offset timeout verify w self in
  outcome run = match first_failure w [272; 274] with
                | Returned _ => Returned false
                | Raised e' => Raised e'
                end /\
  calls run = [ev_socket (Returned tt); ev_bind (local_port self) (Raised e)] /\
  sock (final run) = Some {| bound := false; timeout_set := None |}.
Proof.
  intros Hsock Hsocket Hbind He Htarget Hprinted run. subst run. unfold final.
  destruct verify; session_cases self dt timezone_offset.
  all: try discriminate Hsock.
  all: simplify_eq.
  all: repeat split; congruence.
Qed.

(** X3: [set_rtc] hands at most one datagram to the socket: the frame of
    the target date, addressed to the controller's address and port. *)
Theorem set_rtc_sends_the_frame self dt timezone_offset timeout verify dt' :
  target w dt timezone_offset = Returned dt' ->
  let run := set_rtc dt timezone_offset timeout verify w self in
  sent (calls run) = [] \/
  exists frame r,
    _build_rtc_packet self dt' = Returned frame /\
    sent (calls run) = [(frame, (plc_ip self, plc_port self), r)].
Proof.
  intros Htarget run. subst run.
  destruct verify; session_cases self dt timezone_offset.
  all: simplify_eq.
  all: first [left; reflexivity|right; eexists _, _; split; [|reflexivity]].
  all: first [reflexivity|rewrite (build_rtc_packet_self _ rtc0); eassumption].
Qed.

(** X4: when [_build_rtc_packet] rejects the target date, [set_rtc] sends
    nothing and waits for nothing; after connecting at most it ends in its
    handler, and returns false when only [Exception]s are raised and the
    console statements before the [try] block and in the handler return. *)
Theorem set_rtc_invalid_date_sends_nothing
    self dt timezone_offset timeout verify dt' e :
  target w dt timezone_offset = Returned dt' ->
  _build_rtc_packet self dt' = Raised e ->
  let run := set_rtc dt timezone_offset timeout verify w self in
  sent (calls run) = [] /\
  (forall bufsize r, ev_recvfrom bufsize r ∉ calls run) /\
  (raises_only_Exception w -> adjustment_printed w timezone_offset ->
   handler_printed w -> outcome run = Returned false).
Proof.
  intros Htarget Hraised run.
  subst run. rewrite (build_rtc_packet_self self rtc0) in Hraised.
  split; [|split].
  - destruct verify; session_cases self dt timezone_offset.
    all: first [congruence|reflexivity].
  - intros bufsize r.
    destruct verify; session_cases self dt timezone_offset.
    all: try congruence.
    all: not_in_trace.
  - intros (Hsocket & Hbind & Hsend & Htimeout & Hrecv & Hconsole) Hprinted
      Hhandler.
    unfold handler_printed in Hhandler.
    destruct verify; session_cases self dt timezone_offset.
    all: try congruence.
    all: caught.
Qed.

Lemma set_rtc_socket_held self dt timezone_offset timeout verify :
  let run := set_rtc dt timezone_offset timeout verify w self in
  (ev_close ∉ calls run) /\
  plc_ip (final run) = plc_ip self /\
  plc_port (final run) = plc_port self /\
  local_port (final run) = local_port self /\
  (is_Some (sock self) -> is_Some (sock (final run))) /\
  (sock self = None ->
   (is_Some (sock (final run)) <-> ev_socket (Returned tt) ∈ calls run)).
Proof.
  intros run. subst run. unfold final.
  destruct verify; session_cases self dt timezone_offset.
  all: split; [not_in_trace|].
  all: repeat (split; [reflexivity|]).
  all: split; [intros [? Hs]; first [discriminate Hs|eexists; reflexivity]|].
  all: intros Hnone; try discriminate Hnone.
  all: split; [intros [? Hs]; first [discriminate Hs|trace_mem]|].
  all: intros Hin; first [eexists; reflexivity|trace_inv].
Qed.

(** X5: [set_rtc] never closes the socket and never changes where the
    session points: whatever the outcome, the socket it found or created is
    still held afterwards, for the caller to [close]. *)
Theorem set_rtc_leaves_socket_open self dt timezone_offset timeout verify :
  let run := set_rtc dt timezone_offset timeout verify w self in
  (ev_close ∉ calls run) /\
  plc_ip (final run) = plc_ip self /\
  plc_port (final run) = plc_port self /\
  local_port (final run) = local_port self /\
  (is_Some (sock self) \/ ev_socket (Returned tt) ∈ calls run ->
   is_Some (sock (final run))).
Proof.
  intros run.
  destruct (set_rtc_socket_held self dt timezone_offset timeout verify)
    as (Hclose & Hip & Hport & Hlocal & Hkept & Hcreated).
  repeat (split; [assumption|]).
  intros [Hheld|Hin]; [apply Hkept, Hheld|].
  destruct (sock self) as [s|] eqn:Hsock.
  - apply Hkept. eexists. reflexivity.
  - apply Hcreated; [reflexivity|exact Hin].
Qed.

Lemma set_rtc_sockets_created self dt timezone_offset timeout verify :
  let run := set_rtc dt timezone_offset timeout verify w self in
  sockets_created (calls run) =
    match sock self, sock (final run) with
    | None, Some _ => 1%nat
    | _, _ => 0%nat
    end.
Proof.
  intros run. subst run. unfold final.
  destruct verify; session_cases self dt timezone_offset.
  all: reflexivity.
Qed.

Lemma set_rtc_returns self dt timezone_offset timeout verify dt' :
  raises_only_Exception w ->
  adjustment_printed w timezone_offset ->
  handler_printed w ->
  target w dt timezone_offset = Returned dt' ->
  exists b, outcome (set_rtc dt timezone_offset timeout verify w self) = Returned b.
Proof.
  intros (Hsocket & Hbind & Hsend & Htimeout & Hrecv & Hconsole) Hprinted
    Hhandler Htarget.
  unfold handler_printed in Hhandler.
  destruct verify; session_cases self dt timezone_offset; caught.
Qed.

Lemma set_rtc_true_only_if self dt timezone_offset timeout verify :
  let run := set_rtc dt timezone_offset timeout verify w self in
  outcome run = Returned true ->
  if verify then
    exists response addr,
      ev_recvfrom 1024 (Returned (response, addr)) ∈ calls run /\
      decoded_Acknowledged rtc0 response
  else
    exists packet to, ev_sendto packet to (Returned tt) ∈ calls run.
Proof.
  intros run. subst run. unfold decoded_Acknowledged. destruct verify.
  - session_cases self dt timezone_offset.
    all: intros Htrue; try discriminate Htrue.
    all: acknowledged.
  - session_cases self dt timezone_offset.
    all: intros Htrue; try discriminate Htrue.
    all: eexists _, _; trace_mem.
Qed.

Lemma set_rtc_true_if self dt timezone_offset timeout verify :
  console_works w ->
  let run := set_rtc dt timezone_offset timeout verify w self in
  (if verify then
     exists response addr,
       ev_recvfrom 1024 (Returned (response, addr)) ∈ calls run /\
       decoded_Acknowledged rtc0 response
   else
     exists packet to, ev_sendto packet to (Returned tt) ∈ calls run) ->
  outcome run = Returned true.
Proof.
  intros Hconsole run. subst run. unfold decoded_Acknowledged. destruct verify.
  - session_cases self dt timezone_offset.
    all: intros (response & addr & Hin & d' & position & Hd' & Hack).
    all: trace_inv; same_dict.
    all: try reflexivity.
    all: destruct (Acknowledged_not_Rejected _ _ _ Hack Hkind).
  - session_cases self dt timezone_offset.
    all: intros (packet & to & Hin); trace_inv.
    all: reflexivity.
Qed.

(** X6: a verified update that returns true has made exactly these calls,
    in this order: the calls of [connect] if the session held no socket,
    then [sendto] with the frame, [settimeout] with the caller's timeout and
    one [recvfrom] of up to 1024 bytes. *)
Theorem set_rtc_verified_exchange self dt timezone_offset timeout :
  let run := set_rtc dt timezone_offset timeout true w self in
  outcome run = Returned true ->
  exists dt' frame response addr,
    target w dt timezone_offset = Returned dt' /\
    _build_rtc_packet self dt' = Returned frame /\
    calls run =
      connect_calls self ++
      [ev_sendto frame (plc_ip self, plc_port self) (Returned tt);
       ev_settimeout timeout (Returned tt);
       ev_recvfrom 1024 (Returned (response, addr))].
Proof.
  intros run. subst run. unfold connect_calls.
  session_cases self dt timezone_offset.
  all: intros Hout; try discriminate Hout.
  all: simplify_eq.
  all: eexists _, _, _, _; repeat split.
  all: rewrite (build_rtc_packet_self _ rtc0); eassumption.
Qed.
End Session.

(** ** The theorems at sample inputs *)

Lemma friday_valid : valid_ClockValue friday.
Proof. unfold valid_ClockValue, dow. cbn. lia. Qed.

Lemma minimal_clock_valid : valid_ClockValue minimal_clock.
Proof. unfold valid_ClockValue, dow. cbn. lia. Qed.

Lemma february_30_valid : valid_ClockValue february_30.
Proof. unfold valid_ClockValue, dow. cbn. lia. Qed.

Lemma april_31_valid : valid_ClockValue april_31.
Proof. unfold valid_ClockValue, dow. cbn. lia. Qed.

Lemma world_replying_Exception reply :
  (forall e, reply = Raised e -> is_Exception e = true) ->
  raises_only_Exception (world_replying reply).
Proof.
  intros Hreply. unfold raises_only_Exception. cbn.
  repeat split; try discriminate. intros _. exact Hreply.
Qed.

Lemma world_replying_console reply : console_works (world_replying reply).
Proof. intros line. reflexivity. Qed.

(** Membership in the trace of a run in a sample world. *)
Ltac in_trace :=
  apply list_elem_of_In; vm_compute;
  repeat first [left; reflexivity | right].

Lemma build_rtc_packet_frame_layout_witness :
  exists frame : bytes,
    _build_rtc_packet rtc0 friday = Returned frame /\ length frame = 24%nat.
Proof.
  destruct (build_rtc_packet_frame_layout rtc0 friday friday_valid)
    as (frame & Hframe & Hlength & _).
  exists frame. split; [exact Hframe|exact Hlength].
Defined.

Lemma parse_response_characterised_witness :
  exists d : dict,
    _parse_response rtc0 [0; 0; 0xE5; 1; 1; 1] = Returned d /\
    Acknowledged d 2.
Proof.
  destruct (parse_response_characterised rtc0 [0; 0; 0xE5; 1; 1; 1])
    as (d & Hd & _ & Hack & _).
  exists d. split; [exact Hd|].
  assert (0xE5 ∈ [0; 0; 0xE5; 1; 1; 1]) as Hin by set_solver.
  destruct (Hack ltac:(cbn; lia) Hin) as (i & [Hi Hbefore] & Hacked).
  destruct i as [|[|[|i]]]; try discriminate Hi; [exact Hacked|].
  exfalso. apply (Hbefore 2%nat); [lia|reflexivity].
Defined.

Lemma build_rtc_packet_range_error_witness :
  _build_rtc_packet rtc0 year_2100 =
  Raised (ValueError "Year out of range: 2100 (must be 2000-2099)").
Proof.
  assert (0 <= datetime.weekday year_2100 <= 6) as Hweekday by (cbn; lia).
  assert (~ valid_ClockValue year_2100) as Hbad
    by (unfold valid_ClockValue; cbn; lia).
  destruct (build_rtc_packet_range_error rtc0 year_2100 Hweekday Hbad)
    as (f & Hout & Hbefore & Hraised).
  destruct f; try (exfalso; specialize (Hbefore Year); cbn in Hbefore; lia).
  exact Hraised.
Defined.

Lemma checksum_is_exact_mod_256_witness :
  exists frame : bytes,
    _build_rtc_packet rtc0 minimal_clock = Returned frame /\
    frame !! 21%nat = Some 235.
Proof.
  destruct (checksum_is_exact_mod_256 rtc0 minimal_clock minimal_clock_valid)
    as (_ & _ & frame & Hframe & Hchecksum & _).
  exists frame. split; [exact Hframe|exact Hchecksum].
Defined.

Lemma build_rtc_packet_deterministic_witness :
  _build_rtc_packet rtc0 friday = frame_of_fields 2025 10 17 14 30 0 5 /\
  _build_rtc_packet rtc_connected friday_later = _build_rtc_packet rtc0 friday.
Proof.
  apply (build_rtc_packet_deterministic rtc0 rtc_connected friday friday_later);
    reflexivity.
Defined.

Lemma build_rtc_packet_day_not_calendar_checked_witness :
  (exists frame : bytes,
     _build_rtc_packet rtc0 february_30 = Returned frame /\
     frame !! 16%nat = Some 30) /\
  (exists frame : bytes,
     _build_rtc_packet rtc0 april_31 = Returned frame /\
     frame !! 16%nat = Some 31) /\
  _build_rtc_packet rtc0 october_32 =
    Raised (ValueError "Day out of range: 32").
Proof.
  split; [|split].
  - destruct (build_rtc_packet_day_not_calendar_checked rtc0 february_30)
      as [Hin _]; try (unfold dow; cbn; lia).
    eexists. split; [apply Hin; cbn; lia|reflexivity].
  - destruct (build_rtc_packet_day_not_calendar_checked rtc0 april_31)
      as [Hin _]; try (unfold dow; cbn; lia).
    eexists. split; [apply Hin; cbn; lia|reflexivity].
  - destruct (build_rtc_packet_day_not_calendar_checked rtc0 october_32)
      as [_ Hout]; try (unfold dow; cbn; lia).
    apply Hout. cbn. lia.
Defined.

Lemma close_idempotent_witness :
  close plc_acks rtc0 = (Returned tt, rtc0, []) /\
  (close;; close) plc_acks rtc_connected = close plc_acks rtc_connected.
Proof.
  split.
  - destruct (close_idempotent plc_acks rtc0) as (Hclosed & _).
    apply Hclosed. reflexivity.
  - destruct (close_idempotent plc_acks rtc_connected) as (_ & _ & Htwice & _).
    exact Htwice.
Defined.

Lemma set_rtc_verify_semantics_witness :
  outcome (set_rtc (Some friday) 0 2 true plc_acks rtc0) = Returned true /\
  outcome (set_rtc (Some friday) 0 2 true plc_silent rtc0) = Returned false /\
  outcome (set_rtc (Some friday) 0 2 false plc_silent rtc0) = Returned true.
Proof.
  split; [|split].
  - destruct (set_rtc_verify_semantics plc_acks rtc0 (Some friday) 0 2)
      as (_ & _ & _ & Hworks).
    destruct (Hworks (world_replying_console _)) as (Hif & _).
    apply Hif. exists ack_reply, plc. split; [in_trace|].
    eexists _, 6. split; [reflexivity|]. split; reflexivity.
  - destruct (set_rtc_verify_semantics plc_silent rtc0 (Some friday) 0 2)
      as (_ & _ & _ & Hworks).
    destruct (Hworks (world_replying_console _)) as (_ & _ & Htimeout & _).
    apply Htimeout. in_trace.
  - destruct (set_rtc_verify_semantics plc_silent rtc0 (Some friday) 0 2)
      as (_ & _ & _ & Hworks).
    destruct (Hworks (world_replying_console _)) as (_ & _ & _ & Hunverified).
    destruct (Hunverified friday_frame plc) as (Htrue & _); [in_trace|].
    exact Htrue.
Defined.

(** C6, as stated, fails: on a console that cannot encode the emoji of
    line 232, the datagram has been handed to the socket with [verify]
    false, and [set_rtc] does not return true: the [print] after the send
    raises, and so does the one of the handler. *)
Lemma set_rtc_send_then_console_failure :
  let run := set_rtc (Some friday) 0 2 false (on_latin_console plc_acks) rtc0 in
  ev_sendto friday_frame plc (Returned tt) ∈ calls run /\
  outcome run =
    Raised (UnicodeEncodeError
      ("'latin-1' codec can't encode character '\u274c' in position 0"
       +:+ ": ordinal not in range(256)")).
Proof. split; [in_trace|reflexivity]. Qed.

Lemma set_rtc_catches_every_Exception_witness :
  (exists b,
     outcome (set_rtc (Some friday) 0 2 true plc_silent rtc0) = Returned b) /\
  outcome (set_rtc (Some year_2100) 0 2 true plc_acks rtc0) = Returned false /\
  outcome (set_rtc (Some friday) 0 2 true interrupted rtc0) =
    Raised KeyboardInterrupt /\
  outcome (set_rtc (Some year_2100) 0 2 true (on_latin_console plc_acks) rtc0) =
    Raised (UnicodeEncodeError
      ("'latin-1' codec can't encode character '\u274c' in position 0"
       +:+ ": ordinal not in range(256)")).
Proof.
  split; [|split; [|split]].
  - destruct (set_rtc_catches_every_Exception plc_silent rtc0 (Some friday) 0 2
                true) as (Hcaught & _).
    destruct (Hcaught
                (world_replying_Exception (Raised socket_timeout)
                   ltac:(intros e He; inversion He; reflexivity))
                ltac:(intros Hno; destruct (Hno eq_refl))
                eq_refl friday eq_refl) as (Hreturns & _).
    exact Hreturns.
  - destruct (set_rtc_catches_every_Exception plc_acks rtc0 (Some year_2100)
                0 2 true) as (Hcaught & _).
    destruct (Hcaught
                (world_replying_Exception (Returned (ack_reply, plc))
                   ltac:(discriminate))
                ltac:(intros Hno; destruct (Hno eq_refl))
                eq_refl year_2100 eq_refl) as (_ & Hencode & _).
    apply (Hencode
             (ValueError "Year out of range: 2100 (must be 2000-2099)")).
    reflexivity.
  - destruct (set_rtc_catches_every_Exception interrupted rtc0 (Some friday)
                0 2 true) as (_ & _ & _ & Hpropagates & _).
    apply (Hpropagates (ev_recvfrom 1024 (Raised KeyboardInterrupt)));
      reflexivity.
  - destruct (set_rtc_catches_every_Exception (on_latin_console plc_acks) rtc0
                (Some year_2100) 0 2 true) as (_ & _ & _ & _ & _ & Hhandler).
    apply (Hhandler year_2100
             (ValueError "Year out of range: 2100 (must be 2000-2099)"));
      try reflexivity.
    + intros Hno. destruct (Hno eq_refl).
    + right. repeat split.
Defined.

(** C10, as stated, fails: an overflow of the timezone adjustment, which
    precedes the [try] block, and a [KeyboardInterrupt] during the wait for
    the reply, which is no [Exception], both leave [set_rtc] as exceptions;
    and on a console that cannot encode the emoji of line 272, the handler
    of the ValueError of [_build_rtc_packet] raises in its turn. *)
Lemma set_rtc_propagates_exceptions :
  outcome (set_rtc (Some last_hour) 1 2 true plc_acks rtc0) =
    Raised (OverflowError "date value out of range") /\
  outcome (set_rtc (Some friday) 0 2 true interrupted rtc0) =
    Raised KeyboardInterrupt /\
  outcome (set_rtc (Some year_2100) 0 2 true (on_latin_console plc_acks) rtc0) =
    Raised (UnicodeEncodeError
      ("'latin-1' codec can't encode character '\u274c' in position 0"
       +:+ ": ordinal not in range(256)")).
Proof. repeat split. Qed.
(** ** Further properties of the frame codec *)

Section CodecMore.
Variable self : TecomatRTC.

Ltac range_check H lo v hi :=
  destruct (decide (lo <= v <= hi));
  [rewrite (range_check_passes lo v hi) in H by assumption
  |rewrite (range_check_fails lo v hi) in H by assumption; discriminate H].

(** What a returned frame tells about the [datetime] it was built from. *)
Lemma build_rtc_packet_inv dt (frame : bytes) :
  _build_rtc_packet self dt = Returned frame ->
  (forall f, in_domain f (field_value f dt)) /\
  0 <= dow dt < 256 /\
  frame =
    [0x02; 0x01; 0x02; 0x00; 0x00; 0x11; 0x68; 0x0B; 0x0B; 0x68; 0x00; 0x7D]
    ++ [0x63] ++ data_block dt
    ++ [_calculate_checksum self (data_block dt); 0x16; 0x00].
Proof.
  intros H. unfold _build_rtc_packet in H.
  range_check H 0 (datetime.year dt - 2000) 99.
  range_check H 1 (datetime.month dt) 12.
  range_check H 1 (datetime.day dt) 31.
  range_check H 0 (datetime.hour dt) 23.
  range_check H 0 (datetime.minute dt) 59.
  range_check H 0 (datetime.second dt) 59.
  unfold bytes_of in H.
  destruct (forallb is_byte _) eqn:Hbytes; [|discriminate H].
  injection H as <-. split; [intros []; cbn; lia|]. split; [|reflexivity].
  cbn [app forallb] in Hbytes. unfold dow.
  repeat (apply andb_prop in Hbytes as [? Hbytes]).
  unfold is_byte in *. lia.
Qed.

(** X7: [_build_rtc_packet] returns a frame exactly when year, month, day,
    hour, minute and second are in their domains and the day-of-week,
    [weekday() + 1], fits a byte; every other input raises. *)
Theorem build_rtc_packet_returns_iff dt :
  (exists frame : bytes, _build_rtc_packet self dt = Returned frame) <->
  (forall f, in_domain f (field_value f dt)) /\ 0 <= dow dt < 256.
Proof.
  split.
  - intros [frame Hframe].
    destruct (build_rtc_packet_inv dt frame Hframe) as (Hfields & Hdow & _).
    split; assumption.
  - intros [Hfields Hdow]. unfold dow in Hdow.
    pose proof (Hfields Year) as Hy. pose proof (Hfields Month) as Hmo.
    pose proof (Hfields Day) as Hd. pose proof (Hfields Hour) as Hh.
    pose proof (Hfields Minute) as Hmi. pose proof (Hfields Second) as Hs.
    cbn in Hy, Hmo, Hd, Hh, Hmi, Hs.
    unfold _build_rtc_packet.
    rewrite !range_check_passes by lia.
    unfold bytes_of, DATA_LENGTH, RTC_COMMAND. cbn [app forallb].
    pose proof (calculate_checksum_byte self
      [8; datetime.year dt - 2000; datetime.month dt; datetime.day dt;
       datetime.hour dt; datetime.minute dt; datetime.second dt;
       datetime.weekday dt + 1]) as Hc.
    rewrite !is_byte_true by lia. eexists. reflexivity.
Qed.

(** X8: whatever [_build_rtc_packet] returns is a well-formed datagram: 24
    bytes, each in 0..255, also for a day-of-week outside 1-7. *)
Theorem build_rtc_packet_well_formed dt (frame : bytes) :
  _build_rtc_packet self dt = Returned frame ->
  length frame = 24%nat /\ Forall (fun b => 0 <= b < 256) frame.
Proof.
  intros Hframe.
  destruct (build_rtc_packet_inv dt frame Hframe) as (Hfields & Hdow & ->).
  split; [reflexivity|].
  pose proof (Hfields Year) as Hy. pose proof (Hfields Month) as Hmo.
  pose proof (Hfields Day) as Hd. pose proof (Hfields Hour) as Hh.
  pose proof (Hfields Minute) as Hmi. pose proof (Hfields Second) as Hs.
  cbn in Hy, Hmo, Hd, Hh, Hmi, Hs.
  pose proof (calculate_checksum_byte self (data_block dt)) as Hc.
  unfold data_block in *. cbn [app].
  repeat (apply Forall_cons; split; [lia|]). apply Forall_nil_2.
Qed.

(** X9: the frame determines the clock value: two [datetime]s encoded to
    the same frame agree on year, month, day, hour, minute, second and
    day-of-week. *)
Theorem build_rtc_packet_injective dt1 dt2 (frame : bytes) :
  _build_rtc_packet self dt1 = Returned frame ->
  _build_rtc_packet self dt2 = Returned frame ->
  (forall f, field_value f dt1 = field_value f dt2) /\ dow dt1 = dow dt2.
Proof.
  intros H1 H2.
  destruct (build_rtc_packet_inv dt1 frame H1) as (_ & _ & Hframe1).
  destruct (build_rtc_packet_inv dt2 frame H2) as (_ & _ & Hframe2).
  rewrite Hframe1 in Hframe2. unfold data_block in Hframe2.
  cbn [app] in Hframe2. simplify_eq.
  split; [|assumption]. intros []; cbn; first [assumption|lia].
Qed.

(** X10: the checksum detects every corruption of a single data byte: two
    data blocks that differ in one position, by bytes [x <> y], have
    different checksums. *)
Theorem calculate_checksum_detects_one_byte (before after : list Z) x y :
  0 <= x < 256 -> 0 <= y < 256 -> x <> y ->
  _calculate_checksum self (before ++ x :: after) <>
  _calculate_checksum self (before ++ y :: after).
Proof.
  intros Hx Hy Hne. rewrite !calculate_checksum_mod.
  assert (forall l z, sum (l ++ z :: after) = sum l + z + sum after) as Hsum.
  { induction l as [|a l IH]; intros z; cbn [app].
    - rewrite sum_cons. unfold sum at 2. cbn. lia.
    - rewrite !sum_cons, IH. lia. }
  rewrite !Hsum. intros Heq.
  assert ((x - y) mod 256 = 0) as Hdiff.
  { replace (x - y) with
      ((sum before + x + sum after - 32) - (sum before + y + sum after - 32))
      by lia.
    rewrite Zminus_mod, Heq, Z.sub_diag. reflexivity. }
  apply Z.mod_divide in Hdiff as [k Hk]; lia.
Qed.

(** X11: the checksum is blind to the order of the data bytes: a permuted
    data block, such as month and day exchanged, has the same checksum. *)
Theorem calculate_checksum_permutation (data1 data2 : list Z) :
  data1 ≡ₚ data2 ->
  _calculate_checksum self data1 = _calculate_checksum self data2.
Proof.
  intros Hperm. rewrite !calculate_checksum_mod. f_equal. f_equal.
  induction Hperm as [|x l l' _ IH|x y l|l l' l'' _ IH1 _ IH2].
  - reflexivity.
  - rewrite !sum_cons, IH. reflexivity.
  - rewrite !sum_cons. lia.
  - congruence.
Qed.
End CodecMore.

(** ** Further properties of the response parser *)

Section DecodeMore.
Variable self : TecomatRTC.

Lemma index_app (b extra : bytes) x i :
  index b x = Returned i -> index (b ++ extra) x = Returned i.
Proof.
  revert i. induction b as [|y b IH]; intros i; cbn [index app].
  - discriminate.
  - destruct (y =? x); [trivial|].
    destruct (index b x) as [j|e] eqn:Hj; [|discriminate].
    rewrite (IH j eq_refl). trivial.
Qed.

Lemma contains_app (b extra : bytes) x :
  contains (b ++ extra) x = contains b x || contains extra x.
Proof. unfold contains. apply existsb_app. Qed.

(** What a [dict] with a true ['success'] tells about the response. *)
Lemma parse_response_Acknowledged_inv (response : bytes) (d : dict) position :
  _parse_response self response = Returned d ->
  Acknowledged d position ->
  6 <= len response /\ contains response 0xE5 = true /\
  index response 0xE5 = Returned position.
Proof.
  unfold _parse_response, mret, mbind, result_ret, result_bind.
  intros Hd [Hsuccess Hposition].
  destruct (Z.ltb_spec (len response) 6) as [Hlen|Hlen].
  - injection Hd as <-.
    assert (Some (VBool false) = Some (VBool true)) as Hbad by exact Hsuccess.
    discriminate Hbad.
  - destruct (contains response 0xE5) eqn:Hin.
    + destruct (index response 0xE5) as [i|e] eqn:Hi; [|discriminate Hd].
      injection Hd as <-.
      assert (Some (VInt i) = Some (VInt position)) as Heq by exact Hposition.
      injection Heq as ->. auto.
    + injection Hd as <-.
      assert (Some (VBool false) = Some (VBool true)) as Hbad by exact Hsuccess.
      discriminate Hbad.
Qed.

(** X12: the keys of the result tell its kind: ['success'] and ['raw'] are
    always there, ['error'] exactly on a failure, ['e5_position'] exactly on a
    success, so that reading ['error'] after a false ['success'] cannot
    fail. *)
Theorem parse_response_keys (response : bytes) :
  exists (d : dict) (success : bool),
    _parse_response self response = Returned d /\
    d !! "success" = Some (VBool success) /\
    d !! "raw" = Some (VStr (hex response)) /\
    (is_Some (d !! "error") <-> success = false) /\
    (is_Some (d !! "e5_position") <-> success = true).
Proof.
  assert (forall (d : dict) (success : bool),
            d !! "success" = Some (VBool success) ->
            d !! "raw" = Some (VStr (hex response)) ->
            (is_Some (d !! "error") <-> success = false) ->
            (is_Some (d !! "e5_position") <-> success = true) ->
            exists (d' : dict) (success' : bool),
              Returned d = Returned d' /\
              d' !! "success" = Some (VBool success') /\
              d' !! "raw" = Some (VStr (hex response)) /\
              (is_Some (d' !! "error") <-> success' = false) /\
              (is_Some (d' !! "e5_position") <-> success' = true)) as Hshape
    by (intros d success; eauto 10).
  assert (forall v : value, is_Some (Some v)) as Hsome by (intros; eexists; eauto).
  assert (forall b : bool, ~ is_Some (@None value) /\ (b = b))
    as Hnone by (intros; split; [intros [? H]; discriminate H|reflexivity]).
  unfold _parse_response.
  destruct (len response <? 6).
  - apply (Hshape _ false); try reflexivity.
    + split; [reflexivity|intros _; apply Hsome].
    + split; [intros H; destruct (proj1 (Hnone true) H)|discriminate].
  - destruct (contains response 0xE5) eqn:Hin.
    + apply contains_elem_of in Hin.
      destruct (index_first_occurrence _ _ Hin) as (i & Hi & _).
      rewrite Hi. apply (Hshape _ true); try reflexivity.
      * split; [intros H; destruct (proj1 (Hnone true) H)|discriminate].
      * split; [reflexivity|intros _; apply Hsome].
    + apply (Hshape _ false); try reflexivity.
      * split; [reflexivity|intros _; apply Hsome].
      * split; [intros H; destruct (proj1 (Hnone true) H)|discriminate].
Qed.

(** X13: bytes after an acknowledged response change nothing: the longer
    response is acknowledged too, with the marker at the same position. *)
Theorem parse_response_ignores_trailing_bytes
    (response extra : bytes) (d : dict) position :
  _parse_response self response = Returned d ->
  Acknowledged d position ->
  exists d' : dict,
    _parse_response self (response ++ extra) = Returned d' /\
    Acknowledged d' position.
Proof.
  intros Hd Hack.
  destruct (parse_response_Acknowledged_inv _ _ _ Hd Hack)
    as (Hlen & Hin & Hindex).
  unfold _parse_response.
  assert ((len (response ++ extra) <? 6) = false) as ->.
  { apply Z.ltb_ge. unfold len in *. rewrite length_app. lia. }
  rewrite contains_app, Hin, (index_app _ _ _ _ Hindex). cbn.
  eexists. split; [reflexivity|]. split; reflexivity.
Qed.

(** X14: if the controller echoes the request, the echo of the frame of a
    valid ClockValue is taken for an acknowledgement exactly when the data
    block sums to 261, that is when the checksum byte is 0xE5; the marker is
    then found at offset 21. *)
Theorem parse_response_of_echo dt (frame : bytes) :
  valid_ClockValue dt ->
  _build_rtc_packet self dt = Returned frame ->
  (decoded_Acknowledged self frame <-> sum (data_block dt) = 261) /\
  (forall (d : dict) position,
     _parse_response self frame = Returned d ->
     Acknowledged d position -> position = 21).
Proof.
  intros Hvalid Hframe.
  rewrite (build_rtc_packet_valid self dt Hvalid) in Hframe.
  injection Hframe as Hframe.
  destruct Hvalid as (Hy & Hmo & Hd & Hh & Hmi & Hs & Hw). unfold dow in Hw.
  pose proof (calculate_checksum_mod self (data_block dt)) as Hc.
  assert (sum (data_block dt) =
          8 + (datetime.year dt - 2000) + datetime.month dt + datetime.day dt
          + datetime.hour dt + datetime.minute dt + datetime.second dt
          + (datetime.weekday dt + 1)) as Hsum.
  { unfold data_block, dow. rewrite !sum_cons. unfold sum. cbn. lia. }
  assert (_calculate_checksum self (data_block dt) = 0xE5 <->
          sum (data_block dt) = 261) as Hmarker.
  { rewrite Hc. split; intros H; [|rewrite H; reflexivity].
    destruct (Z_lt_le_dec (sum (data_block dt)) 32).
    - rewrite <- (Z_mod_plus_full _ 1) in H.
      rewrite Z.mod_small in H by lia. lia.
    - destruct (Z_lt_le_dec (sum (data_block dt)) 288).
      + rewrite Z.mod_small in H by lia. lia.
      + rewrite <- (Z_mod_plus_full _ (-1)) in H.
        rewrite Z.mod_small in H by lia. lia. }
  clear Hc. remember (_calculate_checksum self (data_block dt)) as c eqn:Hcdef.
  clear Hcdef.
  assert (forall x lo hi, lo <= x <= hi -> hi < 229 -> (x =? 229) = false)
    as Hsmall by (intros; lia).
  assert (forall x lo hi, lo <= x <= hi -> hi < 229 -> (229 =? x) = false)
    as Hsmall' by (intros; lia).
  assert (contains frame 229 = (229 =? c)) as Hin.
  { rewrite <- Hframe. unfold contains, data_block, dow. cbn [app existsb].
    rewrite (Hsmall' (datetime.year dt - 2000) 0 99),
      (Hsmall' (datetime.month dt) 1 12), (Hsmall' (datetime.day dt) 1 31),
      (Hsmall' (datetime.hour dt) 0 23), (Hsmall' (datetime.minute dt) 0 59),
      (Hsmall' (datetime.second dt) 0 59),
      (Hsmall' (datetime.weekday dt + 1) 1 7) by lia.
    cbn. rewrite orb_false_r. reflexivity. }
  assert (c = 229 -> index frame 229 = Returned 21) as Hindex.
  { intros ->. rewrite <- Hframe. unfold data_block, dow. cbn [app index].
    rewrite (Hsmall (datetime.year dt - 2000) 0 99),
      (Hsmall (datetime.month dt) 1 12), (Hsmall (datetime.day dt) 1 31),
      (Hsmall (datetime.hour dt) 0 23), (Hsmall (datetime.minute dt) 0 59),
      (Hsmall (datetime.second dt) 0 59),
      (Hsmall (datetime.weekday dt + 1) 1 7) by lia.
    reflexivity. }
  split.
  - rewrite <- Hmarker. split.
    + intros (d & position & Hdict & Hack).
      destruct (parse_response_Acknowledged_inv _ _ _ Hdict Hack)
        as (_ & Hcontains & _).
      rewrite Hin in Hcontains. lia.
    + intros Hc229. unfold decoded_Acknowledged, _parse_response.
      assert ((len frame <? 6) = false) as -> by (rewrite <- Hframe; reflexivity).
      rewrite Hin, (Hindex Hc229), Hc229. cbn.
      eexists _, 21. split; [reflexivity|]. split; reflexivity.
  - intros d position Hdict Hack.
    destruct (parse_response_Acknowledged_inv _ _ _ Hdict Hack)
      as (_ & Hcontains & Hposition).
    rewrite Hin in Hcontains. rewrite Hindex in Hposition by lia.
    congruence.
Qed.
End DecodeMore.

(** ** A failed bind *)

(** X2: when [bind] fails, [set_rtc] ends in its handler: it returns false
    when the console statements of the handler return, and raises what they
    raise otherwise.  Either way the session keeps the socket it could not
    bind, and a later [set_rtc], in whatever world, finds a socket and
    neither creates one nor binds again. *)
Theorem failed_bind_is_not_retried
    w self e dt timezone_offset timeout verify dt'
    w2 dt2 timezone_offset2 timeout2 verify2 :
  sock self = None ->
  socket_socket w = Returned tt ->
  socket_bind w (local_port self) = Raised e ->
  is_Exception e = true ->
  target w dt timezone_offset = Returned dt' ->
  adjustment_printed w timezone_offset ->
  let first := set_rtc dt timezone_offset timeout verify w self in
  let second := set_rtc dt2 timezone_offset2 timeout2 verify2 w2 (final first) in
  (handler_printed w -> outcome first = Returned false) /\
  (forall e', first_failure w [272; 274] = Raised e' ->
              outcome first = Raised e') /\
  sock (final first) = Some {| bound := false; timeout_set := None |} /\
  (forall r, ev_socket r ∉ calls second) /\
  (forall port r, ev_bind port r ∉ calls second).
Proof.
  intros Hsock Hsocket Hbind He Htarget Hprinted first second.
  destruct (set_rtc_failed_bind w self e dt timezone_offset timeout verify dt'
              Hsock Hsocket Hbind He Htarget Hprinted) as (Hout & _ & Hkept).
  fold first in Hout.
  split; [intros Hhandler; rewrite Hout, Hhandler; reflexivity|].
  split; [intros e' Hraised; rewrite Hout, Hraised; reflexivity|].
  split; [exact Hkept|].
  apply (set_rtc_no_connect_calls w2 (final first) _ dt2 timezone_offset2
           timeout2 verify2 Hkept).
Qed.

(** ** The command-line parsers *)

Section Parsers.
Variable int : string -> result Z.

Lemma str_split_length sep s :
  length (str_split sep s) = S (occurrences sep s).
Proof.
  induction s as [|c s IH]; cbn [str_split occurrences]; [reflexivity|].
  destruct (Ascii.eqb c sep); cbn [length]; [rewrite IH; reflexivity|].
  destruct (str_split sep s) as [|piece pieces]; [discriminate IH|].
  exact IH.
Qed.

Lemma reraise_Returned {A} (body : result A) catches message a :
  reraise body catches message = Returned a <-> body = Returned a.
Proof.
  unfold reraise. destruct body as [a'|e]; [reflexivity|].
  destruct (catches e); split; discriminate.
Qed.

Lemma reraise_Raised {A} (body : result A) message e :
  reraise body is_ValueError message = Raised e ->
  exists e0, body = Raised e0 /\
    (is_ValueError e0 = true /\ e = ValueError (message e0) \/
     is_ValueError e0 = false /\ e = e0).
Proof.
  unfold reraise. destruct body as [a|e0]; [discriminate|].
  destruct (is_ValueError e0) eqn:He0; intros H; injection H as <-; eauto.
Qed.

Lemma three_parts (parts : list string) :
  (Z.of_nat (length parts) =? 3) = true <-> exists a b c, parts = [a; b; c].
Proof.
  rewrite Z.eqb_eq. split.
  - destruct parts as [|a [|b [|c [|x parts]]]]; cbn [length]; try lia.
    eauto.
  - intros (a & b & c & ->). reflexivity.
Qed.

Ltac decide_range lo v hi :=
  destruct (decide (lo <= v <= hi));
  [rewrite (range_check_passes lo v hi) by assumption
  |rewrite (range_check_fails lo v hi) by assumption].

Lemma parse_time_string_Returned time_str hour minute second :
  parse_time_string int time_str = Returned (hour, minute, second) <->
  exists a b c,
    str_split (char ":") time_str = [a; b; c] /\
    int a = Returned hour /\ int b = Returned minute /\
    int c = Returned second /\
    0 <= hour <= 23 /\ 0 <= minute <= 59 /\ 0 <= second <= 59.
Proof.
  unfold parse_time_string. rewrite reraise_Returned.
  cbv zeta.
  destruct (Z.of_nat (length (str_split (char ":") time_str)) =? 3) eqn:Hlength.
  2: { cbn [negb]. split; [discriminate|].
       intros (a & b & c & Hsplit & _).
       rewrite (proj2 (three_parts _)) in Hlength by eauto. discriminate. }
  apply three_parts in Hlength as (a & b & c & ->).
  cbn [negb nth]. unfold mbind, mret, result_bind, result_ret.
  split.
  - destruct (int a) as [h|?] eqn:Ha; [|discriminate].
    destruct (int b) as [m|?] eqn:Hb; [|discriminate].
    destruct (int c) as [s|?] eqn:Hc; [|discriminate].
    decide_range 0 h 23; [|discriminate].
    decide_range 0 m 59; [|discriminate].
    decide_range 0 s 59; [|discriminate].
    intros H. injection H as <- <- <-. exists a, b, c.
    repeat split; trivial; lia.
  - intros (a' & b' & c' & Hsplit & Ha & Hb & Hc & Hh & Hm & Hs).
    injection Hsplit as <- <- <-. rewrite Ha, Hb, Hc.
    rewrite !range_check_passes by assumption. reflexivity.
Qed.

(** X15: [parse_time_string] accepts exactly the strings with two colons
    whose three pieces [int] reads as an hour in 0-23, a minute in 0-59 and
    a second in 0-59, and returns these three numbers. *)
Theorem parse_time_string_returns_iff time_str hour minute second :
  parse_time_string int time_str = Returned (hour, minute, second) <->
  exists a b c,
    str_split (char ":") time_str = [a; b; c] /\
    int a = Returned hour /\ int b = Returned minute /\
    int c = Returned second /\
    0 <= hour <= 23 /\ 0 <= minute <= 59 /\ 0 <= second <= 59.
Proof.
  unfold parse_time_string. rewrite reraise_Returned.
  cbv zeta.
  destruct (Z.of_nat (length (str_split (char ":") time_str)) =? 3) eqn:Hlength.
  2: { cbn [negb]. split; [discriminate|].
       intros (a & b & c & Hsplit & _).
       rewrite (proj2 (three_parts _)) in Hlength by eauto. discriminate. }
  apply three_parts in Hlength as (a & b & c & ->).
  cbn [negb nth]. unfold mbind, mret, result_bind, result_ret.
  split.
  - destruct (int a) as [h|?] eqn:Ha; [|discriminate].
    destruct (int b) as [m|?] eqn:Hb; [|discriminate].
    destruct (int c) as [s|?] eqn:Hc; [|discriminate].
    decide_range 0 h 23; [|discriminate].
    decide_range 0 m 59; [|discriminate].
    decide_range 0 s 59; [|discriminate].
    intros H. injection H as <- <- <-. exists a, b, c.
    repeat split; trivial; lia.
  - intros (a' & b' & c' & Hsplit & Ha & Hb & Hc & Hh & Hm & Hs).
    injection Hsplit as <- <- <-. rewrite Ha, Hb, Hc.
    rewrite !range_check_passes by assumption. reflexivity.
Qed.

(** X16: a string that does not hold exactly two colons is rejected
    whatever its pieces are, the empty string included, with a message that
    quotes it. *)
Theorem parse_time_string_wrong_shape time_str :
  occurrences (char ":") time_str <> 2%nat ->
  parse_time_string int time_str =
  Raised (ValueError ("Invalid time format '" +:+ time_str
                      +:+ "': Time must be in format HH:MM:SS")).
Proof.
  intros Hcount. unfold parse_time_string.
  pose proof (str_split_length (char ":") time_str) as Hlength.
  destruct (Z.eqb_spec (Z.of_nat (length (str_split (char ":") time_str))) 3)
    as [Heq|Hne]; [lia|].
  reflexivity.
Qed.

Lemma new_datetime_raises year month day hour minute second e :
  new_datetime year month day hour minute second = Raised e ->
  is_ValueError e = true.
Proof.
  unfold new_datetime. repeat case_match; intros; simplify_eq; reflexivity.
Qed.

Lemma parse_time_string_raises time_str e :
  raises_only_ValueError int ->
  parse_time_string int time_str = Raised e ->
  exists msg,
    e = ValueError ("Invalid time format '" +:+ time_str +:+ "': " +:+ msg).
Proof.
  intros Hint Hraised. unfold parse_time_string in Hraised.
  apply reraise_Raised in Hraised
    as (e0 & Hbody & [[He0 ->]|[He0 ->]]).
  - destruct e0; try discriminate He0; eexists; reflexivity.
  - exfalso. revert Hbody. unfold mbind, mret, result_bind, result_ret.
    repeat case_match; intros; simplify_eq;
      try discriminate He0;
      match goal with
      | H : int _ = Raised _ |- _ => apply Hint in H; congruence
      end.
Qed.

Lemma parse_date_string_raises date_str e :
  raises_only_ValueError int ->
  parse_date_string int date_str = Raised e ->
  exists msg,
    e = ValueError ("Invalid date format '" +:+ date_str +:+ "': " +:+ msg).
Proof.
  intros Hint Hraised. unfold parse_date_string in Hraised.
  apply reraise_Raised in Hraised
    as (e0 & Hbody & [[He0 ->]|[He0 ->]]).
  - destruct e0; try discriminate He0; eexists; reflexivity.
  - exfalso. revert Hbody. unfold mbind, mret, result_bind, result_ret.
    repeat case_match; intros; simplify_eq;
      try discriminate He0;
      match goal with
      | H : int _ = Raised _ |- _ => apply Hint in H; congruence
      | H : new_datetime _ _ _ _ _ _ = Raised _ |- _ =>
          apply new_datetime_raises in H; congruence
      end.
Qed.

(** X17: when [int] fails with a ValueError only, so do both parsers, and
    the message starts with the kind of input and quotes the string that
    was given. *)
Theorem parsers_raise_ValueError_quoting_input :
  raises_only_ValueError int ->
  (forall time_str e,
     parse_time_string int time_str = Raised e ->
     exists msg,
       e = ValueError ("Invalid time format '" +:+ time_str +:+ "': " +:+ msg)) /\
  (forall date_str e,
     parse_date_string int date_str = Raised e ->
     exists msg,
       e = ValueError ("Invalid date format '" +:+ date_str +:+ "': " +:+ msg)).
Proof.
  intros Hint. split.
  - intros time_str e. apply parse_time_string_raises, Hint.
  - intros date_str e. apply parse_date_string_raises, Hint.
Qed.

Lemma days_in_month_bounds year month :
  1 <= month <= 12 -> 28 <= _days_in_month year month <= 31.
Proof.
  intros Hmonth. unfold _days_in_month.
  destruct ((month =? 2) && _is_leap year); [lia|].
  assert (month = 1 \/ month = 2 \/ month = 3 \/ month = 4 \/ month = 5 \/
          month = 6 \/ month = 7 \/ month = 8 \/ month = 9 \/ month = 10 \/
          month = 11 \/ month = 12) as Hcases by lia.
  repeat destruct Hcases as [->|Hcases]; try subst month.
  all: vm_compute; split; discriminate.
Qed.

Lemma new_datetime_Returned year month day hour minute second :
  1 <= year <= 9999 -> 1 <= month <= 12 ->
  1 <= day <= _days_in_month year month ->
  0 <= hour <= 23 -> 0 <= minute <= 59 -> 0 <= second <= 59 ->
  new_datetime year month day hour minute second =
  Returned (datetime.make year month day hour minute second 0
              ((_ymd2ord year month day + 6) mod 7)).
Proof.
  intros. unfold new_datetime.
  rewrite !range_check_passes by assumption. reflexivity.
Qed.

Lemma parse_date_string_Returned date_str year month day :
  parse_date_string int date_str = Returned (year, month, day) <->
  exists a b c,
    str_split (char "-") date_str = [a; b; c] /\
    int a = Returned year /\ int b = Returned month /\ int c = Returned day /\
    2000 <= year <= 2099 /\ 1 <= month <= 12 /\
    1 <= day <= _days_in_month year month.
Proof.
  unfold parse_date_string. rewrite reraise_Returned.
  cbv zeta.
  destruct (Z.of_nat (length (str_split (char "-") date_str)) =? 3) eqn:Hlength.
  2: { cbn [negb]. split; [discriminate|].
       intros (a & b & c & Hsplit & _).
       rewrite (proj2 (three_parts _)) in Hlength by eauto. discriminate. }
  apply three_parts in Hlength as (a & b & c & ->).
  cbn [negb nth]. unfold mbind, mret, result_bind, result_ret.
  split.
  - destruct (int a) as [y|?] eqn:Ha; [|discriminate].
    destruct (int b) as [m|?] eqn:Hb; [|discriminate].
    destruct (int c) as [d|?] eqn:Hc; [|discriminate].
    decide_range 2000 y 2099; [|discriminate].
    decide_range 1 m 12; [|discriminate].
    decide_range 1 d 31; [|discriminate].
    destruct (decide (d <= _days_in_month y m)) as [Hdim|Hdim].
    + rewrite new_datetime_Returned by lia.
      intros H. injection H as <- <- <-. exists a, b, c.
      repeat split; trivial; lia.
    + unfold new_datetime.
      rewrite (range_check_passes 1 y 9999), (range_check_passes 1 m 12),
        (range_check_fails 1 d) by lia.
      discriminate.
  - intros (a' & b' & c' & Hsplit & Ha & Hb & Hc & Hy & Hm & Hd).
    injection Hsplit as <- <- <-. rewrite Ha, Hb, Hc.
    pose proof (days_in_month_bounds year month Hm).
    rewrite !range_check_passes by lia.
    rewrite new_datetime_Returned by lia. reflexivity.
Qed.

(** X18: [parse_date_string] accepts exactly the strings with two hyphens
    whose pieces [int] reads as a year in 2000-2099, a month in 1-12 and a
    day that this month of this year has: unlike [_build_rtc_packet], it
    checks the day against the calendar. *)
Theorem parse_date_string_returns_iff date_str year month day :
  parse_date_string int date_str = Returned (year, month, day) <->
  exists a b c,
    str_split (char "-") date_str = [a; b; c] /\
    int a = Returned year /\ int b = Returned month /\ int c = Returned day /\
    2000 <= year <= 2099 /\ 1 <= month <= 12 /\
    1 <= day <= _days_in_month year month.
Proof.
  unfold parse_date_string. rewrite reraise_Returned.
  cbv zeta.
  destruct (Z.of_nat (length (str_split (char "-") date_str)) =? 3) eqn:Hlength.
  2: { cbn [negb]. split; [discriminate|].
       intros (a & b & c & Hsplit & _).
       rewrite (proj2 (three_parts _)) in Hlength by eauto. discriminate. }
  apply three_parts in Hlength as (a & b & c & ->).
  cbn [negb nth]. unfold mbind, mret, result_bind, result_ret.
  split.
  - destruct (int a) as [y|?] eqn:Ha; [|discriminate].
    destruct (int b) as [m|?] eqn:Hb; [|discriminate].
    destruct (int c) as [d|?] eqn:Hc; [|discriminate].
    decide_range 2000 y 2099; [|discriminate].
    decide_range 1 m 12; [|discriminate].
    decide_range 1 d 31; [|discriminate].
    destruct (decide (d <= _days_in_month y m)) as [Hdim|Hdim].
    + rewrite new_datetime_Returned by lia.
      intros H. injection H as <- <- <-. exists a, b, c.
      repeat split; trivial; lia.
    + unfold new_datetime.
      rewrite (range_check_passes 1 y 9999), (range_check_passes 1 m 12),
        (range_check_fails 1 d) by lia.
      discriminate.
  - intros (a' & b' & c' & Hsplit & Ha & Hb & Hc & Hy & Hm & Hd).
    injection Hsplit as <- <- <-. rewrite Ha, Hb, Hc.
    pose proof (days_in_month_bounds year month Hm).
    rewrite !range_check_passes by lia.
    rewrite new_datetime_Returned by lia. reflexivity.
Qed.

(** X19: a date and a time the parsers accept always make a [datetime]
    that [_build_rtc_packet] encodes: the day-of-week of a [datetime] is in
    1-7, and none of the encoder's range checks can fail on it. *)
Theorem parsed_date_and_time_encode
    self date_str time_str year month day hour minute second :
  parse_date_string int date_str = Returned (year, month, day) ->
  parse_time_string int time_str = Returned (hour, minute, second) ->
  exists dt (frame : bytes),
    new_datetime year month day hour minute second = Returned dt /\
    valid_ClockValue dt /\
    _build_rtc_packet self dt = Returned frame.
Proof.
  intros Hdate Htime.
  apply parse_date_string_Returned in Hdate
    as (? & ? & ? & _ & _ & _ & _ & Hy & Hmo & Hd).
  apply parse_time_string_Returned in Htime
    as (? & ? & ? & _ & _ & _ & _ & Hh & Hmi & Hs).
  pose proof (days_in_month_bounds year month Hmo) as Hdim.
  assert (valid_ClockValue
            (datetime.make year month day hour minute second 0
               ((_ymd2ord year month day + 6) mod 7))) as Hvalid.
  { unfold valid_ClockValue, dow. cbn.
    pose proof (Z.mod_pos_bound (_ymd2ord year month day + 6) 7). lia. }
  eexists _, _. split; [apply new_datetime_Returned; lia|].
  split; [exact Hvalid|]. apply build_rtc_packet_valid, Hvalid.
Qed.
End Parsers.

(** ** The command-line entry point *)

Section Main.
Variable int : string -> result Z.

Local Arguments first_failure : simpl never.

Lemma works_not_raised w lines e :
  console_works w -> first_failure w lines = Raised e -> False.
Proof.
  intros Hconsole Hraised.
  rewrite (first_failure_works w lines Hconsole) in Hraised.
  discriminate Hraised.
Qed.

Lemma main_target_raises a w e :
  raises_only_ValueError int ->
  main_target int a w = Raised e ->
  is_ValueError e = true \/
  first_failure w [478] = Raised e \/ first_failure w [482] = Raised e.
Proof.
  intros int_raises.
  unfold main_target, mbind, mret, result_bind, result_ret.
  repeat case_match; intros; simplify_eq; auto; left;
    match goal with
    | H : parse_date_string _ _ = Raised _ |- _ =>
        apply (parse_date_string_raises int _ _ int_raises) in H as [? ->]
    | H : parse_time_string _ _ = Raised _ |- _ =>
        apply (parse_time_string_raises int _ _ int_raises) in H as [? ->]
    | H : new_datetime _ _ _ _ _ _ = Raised _ |- _ =>
        apply new_datetime_raises in H
    end; trivial.
Qed.

(** Whatever the console does, [main_update] leaves the updater and the
    trace as [set_rtc] left them, or untouched when it has not come as far
    as [set_rtc]. *)
Lemma main_update_frame a target_dt w rtc :
  let tz_offset := if args.no_offset a then 0 else args.timezone_offset a in
  let run := set_rtc (Some target_dt) tz_offset (args.timeout a)
               (negb (args.no_verify a)) w rtc in
  let res := main_update a target_dt w rtc in
  final res = rtc /\ calls res = [] \/
  final res = final run /\ calls res = calls run.
Proof.
  intros tz_offset run res. subst tz_offset run res.
  unfold main_update.
  generalize (set_rtc (Some target_dt)
                (if args.no_offset a then 0 else args.timezone_offset a)
                (args.timeout a) (negb (args.no_verify a))).
  generalize (if args.no_offset a then 0 else args.timezone_offset a).
  intros tz m.
  unfold try_except2, print, add_hours, mbind, M_bind, mret, M_ret, final,
    calls.
  repeat first [progress cbn [fst snd app negb]|case_match].
  all: simplify_eq; cbn [fst snd app]; rewrite ?app_nil_r; auto.
  all: right; match goal with H : _ = (_, _, _) |- _ => rewrite H end; auto.
Qed.

(** The second [try] statement of [main] on a console that works. *)
Lemma main_update_works a target_dt w rtc :
  console_works w ->
  let tz_offset := if args.no_offset a then 0 else args.timezone_offset a in
  (exists e,
     tz_offset <> 0 /\ timedelta_add w target_dt tz_offset = Raised e /\
     main_update a target_dt w rtc =
       (if is_KeyboardInterrupt e then Returned 130
        else if is_Exception e then Returned 1 else Raised e,
        rtc, []))
  \/
  (let run := set_rtc (Some target_dt) tz_offset (args.timeout a)
                (negb (args.no_verify a)) w rtc in
   (tz_offset = 0 \/
    exists shifted, timedelta_add w target_dt tz_offset = Returned shifted) /\
   main_update a target_dt w rtc =
     (match outcome run with
      | Returned success => Returned (if success then 0 else 1)
      | Raised e =>
          if is_KeyboardInterrupt e then Returned 130
          else if is_Exception e then Returned 1 else Raised e
      end,
      final run, calls run)).
Proof.
  intros Hconsole tz_offset. subst tz_offset.
  unfold main_update.
  generalize (set_rtc (Some target_dt)
                (if args.no_offset a then 0 else args.timezone_offset a)
                (args.timeout a) (negb (args.no_verify a))).
  generalize (if args.no_offset a then 0 else args.timezone_offset a).
  intros tz m.
  unfold try_except2, print, add_hours, mbind, M_bind, mret, M_ret, outcome,
    final, calls.
  assert (forall lines, first_failure w lines = Returned tt) as Hprint
    by (intros lines; apply first_failure_works, Hconsole).
  cbn. rewrite ?Hprint.
  destruct (Z.eqb_spec tz 0) as [Htz|Htz]; cbn; rewrite ?Hprint.
  - right. split; [left; exact Htz|].
    destruct (m w rtc) as [[[[]|e] rtc'] t]; cbn; rewrite ?Hprint.
    3: destruct (is_KeyboardInterrupt e), (is_Exception e).
    all: cbn; rewrite ?Hprint, ?app_nil_r; reflexivity.
  - destruct (timedelta_add w target_dt tz) as [shifted|e] eqn:Hshift.
    + right. split; [right; eauto|]. cbn. rewrite ?Hprint.
      destruct (m w rtc) as [[[[]|e] rtc'] t]; cbn; rewrite ?Hprint.
      3: destruct (is_KeyboardInterrupt e), (is_Exception e).
      all: cbn; rewrite ?Hprint, ?app_nil_r; reflexivity.
    + left. exists e. split; [exact Htz|]. split; [reflexivity|].
      cbn. destruct (is_KeyboardInterrupt e), (is_Exception e).
      all: cbn; rewrite ?Hprint; reflexivity.
Qed.

(** [main] after [main_target] has returned: the [finally] clause closes
    the updater, and what [close] raises replaces the exit. *)
Lemma main_run a w target_dt :
  main_target int a w = Returned target_dt ->
  let rtc := __init__ (args.ip a) (args.port a) (args.local_port a) in
  let res := main_update a target_dt w rtc in
  main int (Namespace a) w =
    (match outcome (close w (final res)) with
     | Raised e' => uncaught e'
     | Returned _ =>
         match outcome res with
         | Returned code => sys_exit code
         | Raised e => uncaught e
         end
     end,
     Some (final (close w (final res))),
     calls res ++ calls (close w (final res))).
Proof.
  intros Htarget rtc res. subst rtc res.
  unfold main, main_session, try_finally, outcome, final, calls.
  rewrite Htarget.
  destruct (main_update a target_dt w _) as [[r rtc'] t]. cbn [fst snd].
  destruct (close w rtc') as [[[[]|e'] rtc''] t']; destruct r; reflexivity.
Qed.

Lemma close_works w self :
  console_works w -> outcome (close w self) = Returned tt.
Proof.
  intros Hconsole. destruct (close_run w self) as (_ & _ & _ & _ & _ & ->).
  destruct (sock self); [apply first_failure_works, Hconsole|reflexivity].
Qed.

(** X20: on a console that works, [main] lets no exception out: when
    [parse_arguments] leaves the program, [main] ends there, with the code
    of [argparse] and nothing done; otherwise it ends with [sys.exit], and
    the code is 0, 1 or 130. *)
Theorem main_always_exits parse_arguments w :
  raises_only_ValueError int ->
  console_works w ->
  match parse_arguments with
  | SystemExit code => main int parse_arguments w = (sys_exit code, None, [])
  | Namespace a =>
      exists code,
        ended (main int parse_arguments w) = sys_exit code /\
        (code = 0 \/ code = 1 \/ code = 130)
  end.
Proof.
  intros int_raises Hconsole. destruct parse_arguments as [a|code];
    [|reflexivity].
  destruct (main_target int a w) as [target_dt|e] eqn:Htarget.
  - rewrite (main_run a w target_dt Htarget), close_works by assumption.
    unfold ended. cbn [fst snd].
    destruct (main_update_works a target_dt w
                (__init__ (args.ip a) (args.port a) (args.local_port a))
                Hconsole) as [(e & _ & _ & ->)|[_ ->]]; unfold outcome.
    + cbn [fst snd]. destruct e; cbn; eauto.
    + cbn [fst snd].
      destruct (set_rtc _ _ _ _ w _).1.1 as [[]|e];
        [eauto|eauto|destruct e; cbn; eauto].
  - unfold main. rewrite Htarget.
    destruct (main_target_raises a w e int_raises Htarget)
      as [->|[Hprint|Hprint]].
    + rewrite (first_failure_works w _ Hconsole). unfold ended. cbn. eauto.
    + destruct (works_not_raised w _ e Hconsole Hprint).
    + destruct (works_not_raised w _ e Hconsole Hprint).
Qed.

(** X21: a [--date] or [--time] the parsers reject ends [main] before the
    updater exists and before any socket call: with code 1 when the [print]
    of the error returns, and with what that [print] raises otherwise. *)
Theorem main_rejects_bad_input a w :
  raises_only_ValueError int ->
  let rejected :=
    (match first_failure w [485] with
     | Returned _ => sys_exit 1
     | Raised e' => uncaught e'
     end, @None TecomatRTC, @nil event) in
  (forall e,
     given (args.date a) = true ->
     parse_date_string int (default "" (args.date a)) = Raised e ->
     main int (Namespace a) w = rejected) /\
  (forall e,
     given (args.date a) = false ->
     given (args.time a) = true ->
     parse_time_string int (default "" (args.time a)) = Raised e ->
     main int (Namespace a) w = rejected).
Proof.
  intros int_raises rejected. subst rejected.
  assert (forall e,
            main_target int a w = Raised e -> is_ValueError e = true ->
            main int (Namespace a) w =
              (match first_failure w [485] with
               | Returned _ => sys_exit 1
               | Raised e' => uncaught e'
               end, None, [])) as Hmain.
  { intros e Htarget He. unfold main. rewrite Htarget, He.
    destruct (first_failure w [485]); reflexivity. }
  split.
  - intros e Hgiven Hraised.
    destruct (parse_date_string_raises int _ _ int_raises Hraised) as [msg ->].
    eapply Hmain;
      [unfold main_target; rewrite Hgiven, orb_true_r, Hraised|]; reflexivity.
  - intros e Hdate Htime Hraised.
    destruct (parse_time_string_raises int _ _ int_raises Hraised) as [msg ->].
    eapply Hmain;
      [unfold main_target; rewrite Hdate, Htime; cbn; rewrite Hraised|];
      reflexivity.
Qed.

(** X22: on a console that works, a timezone adjustment that overflows
    ends [main] with code 1, and no socket has been created: [main]
    computes the adjusted time before it calls [set_rtc]. *)
Theorem main_offset_overflow a w target_dt e :
  console_works w ->
  main_target int a w = Returned target_dt ->
  args.no_offset a = false ->
  args.timezone_offset a <> 0 ->
  timedelta_add w target_dt (args.timezone_offset a) = Raised e ->
  is_Exception e = true ->
  main int (Namespace a) w =
    (sys_exit 1,
     Some (__init__ (args.ip a) (args.port a) (args.local_port a)), []).
Proof.
  intros Hconsole Htarget Hno Htz Hshift He.
  rewrite (main_run a w target_dt Htarget), close_works by assumption.
  destruct (main_update_works a target_dt w
              (__init__ (args.ip a) (args.port a) (args.local_port a))
              Hconsole) as [(e' & _ & Hshift' & ->)|[Hreached _]];
    rewrite Hno in *.
  - rewrite Hshift in Hshift'. injection Hshift' as <-.
    unfold outcome, final, calls. cbn [fst snd]. rewrite He.
    destruct e; try discriminate He; reflexivity.
  - destruct Hreached as [?|[shifted Hshifted]]; congruence.
Qed.

(** X23: [main] leaves no socket behind: whenever the updater was created it
    holds no socket at the end, it points where the arguments said, and a
    socket was created exactly when [close] is the last socket call. *)
Theorem main_closes_the_socket a w rtc :
  updater (main int (Namespace a) w) = Some rtc ->
  sock rtc = None /\
  plc_ip rtc = args.ip a /\ plc_port rtc = args.port a /\
  local_port rtc = args.local_port a /\
  (ev_socket (Returned tt) ∈ main_calls (main int (Namespace a) w) <->
   last (main_calls (main int (Namespace a) w)) = Some ev_close).
Proof.
  destruct (main_target int a w) as [target_dt|e] eqn:Htarget.
  2: { unfold main. rewrite Htarget.
       destruct (is_ValueError e); [|discriminate].
       destruct (first_failure w [485]); discriminate. }
  rewrite (main_run a w target_dt Htarget).
  unfold updater, main_calls. cbn [fst snd]. intros H. injection H as <-.
  set (rtc := __init__ (args.ip a) (args.port a) (args.local_port a)).
  set (res := main_update a target_dt w rtc).
  destruct (close_run w (final res))
    as (Hclosed & Hip' & Hport' & Hlocal' & Hcalls & _).
  rewrite Hip', Hport', Hlocal', Hcalls.
  split; [exact Hclosed|].
  destruct (main_update_frame a target_dt w rtc) as [[Hsame Hnone]|[Hsame Hrun]];
    fold res in Hsame; rewrite Hsame.
  - fold res in Hnone. rewrite Hnone. cbn.
    repeat (split; [reflexivity|]). split; [|discriminate].
    intros Hin. apply elem_of_nil in Hin. destruct Hin.
  - fold res in Hrun. rewrite Hrun.
    set (run := set_rtc _ _ _ _ w rtc).
    destruct (set_rtc_socket_held w rtc (Some target_dt)
                (if args.no_offset a then 0 else args.timezone_offset a)
                (args.timeout a) (negb (args.no_verify a)))
      as (Hclose & Hip & Hport & Hlocal & _ & Hcreated).
    fold run in Hclose, Hip, Hport, Hlocal, Hcreated.
    specialize (Hcreated eq_refl).
    repeat (split; [assumption|]).
    destruct (sock (final run)) as [s|].
    + rewrite last_snoc. split; [reflexivity|]. intros _.
      apply elem_of_app. left. apply Hcreated. eexists. reflexivity.
    + rewrite app_nil_r. split.
      * intros Hin. apply Hcreated in Hin as [? Hin]. discriminate Hin.
      * intros Hlast. exfalso. apply Hclose.
        apply last_Some in Hlast as [t ->]. apply elem_of_app. right.
        apply list_elem_of_singleton. reflexivity.
Qed.

(** X24: on a console that works and with the command line accepted, the
    exit code is 0 exactly when the update went through: with verification,
    when a reply was received and decoded as Acknowledged; with
    [--no-verify], when the datagram was handed to the socket. *)
Theorem main_exits_0_iff a w :
  console_works w ->
  ended (main int (Namespace a) w) = sys_exit 0 <->
  if args.no_verify a then
    exists packet to,
      ev_sendto packet to (Returned tt) ∈ main_calls (main int (Namespace a) w)
  else
    exists response addr,
      ev_recvfrom 1024 (Returned (response, addr))
        ∈ main_calls (main int (Namespace a) w) /\
      decoded_Acknowledged rtc0 response.
Proof.
  intros Hconsole.
  destruct (main_target int a w) as [target_dt|e] eqn:Htarget.
  2: { unfold main. rewrite Htarget. unfold ended, main_calls.
       assert ((if is_ValueError e
                then match first_failure w [485] with
                     | Returned _ => (sys_exit 1, @None TecomatRTC, @nil event)
                     | Raised e' => (uncaught e', None, [])
                     end
                else (uncaught e, None, [])).1.1 <> sys_exit 0 /\
               (if is_ValueError e
                then match first_failure w [485] with
                     | Returned _ => (sys_exit 1, @None TecomatRTC, @nil event)
                     | Raised e' => (uncaught e', None, [])
                     end
                else (uncaught e, None, [])).2 = []) as [Hne ->]
         by (destruct (is_ValueError e), (first_failure w [485]);
             split; first [discriminate|reflexivity]).
       split; [intros H; destruct (Hne H)|].
       destruct (args.no_verify a).
       all: intros (? & ? & H); try destruct H as [H _].
       all: apply elem_of_nil in H; destruct H. }
  rewrite (main_run a w target_dt Htarget), close_works by assumption.
  unfold ended, main_calls. cbn [fst snd].
  set (rtc := __init__ (args.ip a) (args.port a) (args.local_port a)).
  destruct (close_run w (final (main_update a target_dt w rtc)))
    as (_ & _ & _ & _ & Hcalls & _).
  rewrite Hcalls. clear Hcalls.
  destruct (main_update_works a target_dt w rtc Hconsole)
    as [(e & _ & _ & ->)|[_ ->]]; unfold outcome, final, calls; cbn [fst snd].
  - cbn. split.
    + destruct e; cbn; discriminate.
    + destruct (args.no_verify a).
      all: intros (? & ? & H); try destruct H as [H _].
      all: apply elem_of_nil in H; destruct H.
  - set (run := set_rtc _ _ _ _ w rtc).
    pose proof (set_rtc_true_only_if w rtc (Some target_dt)
                  (if args.no_offset a then 0 else args.timezone_offset a)
                  (args.timeout a) (negb (args.no_verify a))) as Honly.
    pose proof (set_rtc_true_if w rtc (Some target_dt)
                  (if args.no_offset a then 0 else args.timezone_offset a)
                  (args.timeout a) (negb (args.no_verify a)) Hconsole) as Hif.
    fold run in Honly, Hif. cbv zeta in Honly, Hif.
    unfold outcome, calls in Honly, Hif.
    assert (forall ev, ev <> ev_close ->
              (ev ∈ run.2 ++ match sock run.1.2 with
                             | Some _ => [ev_close]
                             | None => []
                             end <-> ev ∈ run.2)) as Hmem.
    { intros ev Hev. rewrite elem_of_app. split; [|auto].
      intros [Hin|Hin]; [exact Hin|].
      destruct (sock run.1.2).
      - apply list_elem_of_singleton in Hin. contradiction.
      - apply elem_of_nil in Hin. destruct Hin. }
    assert (match run.1.1 with
            | Returned success => sys_exit (if success then 0 else 1)
            | Raised e =>
                match
                  (if is_KeyboardInterrupt e then Returned 130
                   else if is_Exception e then Returned 1 else Raised e)
                with
                | Returned code => sys_exit code
                | Raised e0 => uncaught e0
                end
            end = sys_exit 0 <-> run.1.1 = Returned true) as Hzero.
    { destruct run.1.1 as [[]|e]; [tauto|split; discriminate|].
      destruct e; cbn; split; discriminate. }
    assert (match
              match run.1.1 with
              | Returned success => Returned (if success then 0 else 1)
              | Raised e =>
                  if is_KeyboardInterrupt e then Returned 130
                  else if is_Exception e then Returned 1 else Raised e
              end
            with
            | Returned code => sys_exit code
            | Raised e => uncaught e
            end = sys_exit 0 <-> run.1.1 = Returned true) as ->.
    { rewrite <- Hzero. destruct run.1.1 as [[]|e]; reflexivity. }
    destruct (args.no_verify a); cbn [negb] in Honly, Hif.
    + split.
      * intros Htrue. destruct (Honly Htrue) as (packet & to & Hin).
        exists packet, to. apply Hmem; [discriminate|exact Hin].
      * intros (packet & to & Hin). apply Hif. exists packet, to.
        apply Hmem in Hin; [exact Hin|discriminate].
    + split.
      * intros Htrue. destruct (Honly Htrue) as (response & addr & Hin & Hack).
        exists response, addr.
        split; [apply Hmem; [discriminate|exact Hin]|exact Hack].
      * intros (response & addr & Hin & Hack). apply Hif.
        exists response, addr.
        split; [apply Hmem in Hin; [exact Hin|discriminate]|exact Hack].
Qed.
End Main.

(** ** The periodic update *)

Section Periodic.
Variable timezone_offset : Z.

Local Arguments first_failure : simpl never.

Lemma sockets_created_app t t' :
  sockets_created (t ++ t') = (sockets_created t + sockets_created t')%nat.
Proof. unfold sockets_created. rewrite omap_app, length_app. reflexivity. Qed.

Lemma periodic_loop_running rounds self :
  Forall (round_returns timezone_offset) rounds ->
  exists self' t,
    periodic_loop timezone_offset rounds self = (running, self', t) /\
    ev_close ∉ t.
Proof.
  intros Hrounds. revert self.
  induction Hrounds as [|[w slept] rounds Hround _ IH]; intros self.
  - exists self, []. split; [reflexivity|]. apply not_elem_of_nil.
  - destruct Hround as (Hworld & [dt' Htarget] & Hprinted & Hhandler & Hslept).
    cbn in Hworld, Htarget, Hprinted, Hhandler, Hslept. subst slept.
    cbn [periodic_loop].
    destruct (set_rtc_returns w self None timezone_offset 2 true dt'
                Hworld Hprinted Hhandler Htarget) as [b Hb].
    destruct (set_rtc_socket_held w self None timezone_offset 2 true)
      as (Hclose & _).
    destruct (set_rtc None timezone_offset 2 true w self) as [[r self1] t1].
    unfold outcome, calls in Hb, Hclose. cbn in Hb, Hclose. subst r.
    destruct (IH self1) as (self' & t & -> & Ht).
    exists self', (t1 ++ t). split; [reflexivity|].
    rewrite elem_of_app. tauto.
Qed.

(** X25: a failed update does not stop the periodic loop: once the two
    console statements at the start have returned, as long as [set_rtc]
    returns, true or false, and the sleep is not interrupted, the loop is
    still running after any number of rounds and has not closed the
    socket. *)
Theorem periodic_update_keeps_running start rounds self :
  first_failure start [285; 286] = Returned tt ->
  Forall (round_returns timezone_offset) rounds ->
  exists self' t,
    periodic_update timezone_offset start rounds self = (None, self', t) /\
    ev_close ∉ t.
Proof.
  intros Hstart Hrounds.
  destruct (periodic_loop_running rounds self Hrounds)
    as (self' & t & Hloop & Ht).
  exists self', t. unfold periodic_update. rewrite Hstart, Hloop. auto.
Qed.

(** X26: however the periodic loop ends, the socket is closed when
    [periodic_update] is left, and the result says how the loop ended: the
    exception [e] that ended the loop is raised again, unless it is a
    [KeyboardInterrupt], after which [periodic_update] prints and returns;
    what the [print] of that handler or the one of [close] raises is raised
    instead.  On a console that works the result is a return exactly for a
    [KeyboardInterrupt], and [e] itself otherwise. *)
Theorem periodic_update_ends_closed start rounds self w e self1 t1 :
  first_failure start [285; 286] = Returned tt ->
  periodic_loop timezone_offset rounds self = (ended_by w e, self1, t1) ->
  exists r self',
    periodic_update timezone_offset start rounds self =
      (Some r, self', t1 ++ calls (close w self1)) /\
    sock self' = None /\
    r = match outcome (close w self1) with
        | Raised e' => Raised e'
        | Returned _ =>
            if is_KeyboardInterrupt e then first_failure w [293] else Raised e
        end /\
    (console_works w ->
     r = if is_KeyboardInterrupt e then Returned tt else Raised e).
Proof.
  intros Hstart Hloop. unfold periodic_update. rewrite Hstart, Hloop.
  unfold try_finally, try_except, lift, print.
  destruct (close_run w self1) as (Hclosed & _ & _ & _ & _ & Hout).
  assert (console_works w -> outcome (close w self1) = Returned tt) as Hworks
    by apply close_works.
  unfold outcome, final, calls in *.
  destruct (is_KeyboardInterrupt e) eqn:He.
  - cbn [app]. destruct (close w self1) as [[[[]|e'] self2] t2] eqn:Hclose.
    all: cbn [fst snd] in *; eexists _, _.
    all: split; [reflexivity|]. all: split; [exact Hclosed|].
    all: split; [reflexivity|]. all: intros Hconsole.
    + apply first_failure_works, Hconsole.
    + discriminate (Hworks Hconsole).
  - destruct (close w self1) as [[[[]|e'] self2] t2] eqn:Hclose.
    all: cbn [fst snd] in *; eexists _, _.
    all: split; [reflexivity|]. all: split; [exact Hclosed|].
    all: split; [reflexivity|]. all: intros Hconsole.
    + reflexivity.
    + discriminate (Hworks Hconsole).
Qed.

Lemma periodic_loop_sockets rounds self :
  sockets_created (periodic_loop timezone_offset rounds self).2 =
    match sock self, sock (periodic_loop timezone_offset rounds self).1.2 with
    | None, Some _ => 1%nat
    | _, _ => 0%nat
    end /\
  (is_Some (sock self) ->
   is_Some (sock (periodic_loop timezone_offset rounds self).1.2)).
Proof.
  revert self. induction rounds as [|[w slept] rounds IH]; intros self.
  - cbn. split; [destruct (sock self); reflexivity|trivial].
  - cbn [periodic_loop].
    pose proof (set_rtc_sockets_created w self None timezone_offset 2 true)
      as Hcount.
    destruct (set_rtc_socket_held w self None timezone_offset 2 true)
      as (_ & _ & _ & _ & Hkept & _).
    destruct (set_rtc None timezone_offset 2 true w self) as [[r self1] t1].
    unfold calls, final in Hcount, Hkept. cbn [fst snd] in Hcount, Hkept.
    destruct r as [b|e]; [|cbn [fst snd]; auto].
    destruct slept as [[]|e]; [|cbn [fst snd]; auto].
    destruct (IH self1) as [Hcount' Hkept'].
    destruct (periodic_loop timezone_offset rounds self1) as [[l self2] t2].
    cbn [fst snd] in Hcount', Hkept' |- *.
    rewrite sockets_created_app, Hcount, Hcount'.
    split.
    + revert Hkept Hkept'.
      destruct (sock self) as [s|], (sock self1) as [s1|],
        (sock self2) as [s2|]; intros Hkept Hkept'; try reflexivity.
      all: exfalso.
      all: first [destruct Hkept as [? Hbad]; [eauto|discriminate Hbad]
                 |destruct Hkept' as [? Hbad]; [eauto|discriminate Hbad]].
    + intros Hheld. apply Hkept', Hkept, Hheld.
Qed.

(** X27: over all the rounds of the periodic loop at most one socket is
    created, and none when the session already holds one: the socket is
    reused from round to round. *)
Theorem periodic_update_one_socket start rounds self :
  (sockets_created (periodic_update timezone_offset start rounds self).2 <= 1)%nat /\
  (is_Some (sock self) ->
   sockets_created (periodic_update timezone_offset start rounds self).2 = 0%nat).
Proof.
  destruct (periodic_loop_sockets rounds self) as [Hcount Hkept].
  unfold periodic_update.
  destruct (first_failure start [285; 286]) as [[]|e0];
    [|cbn; split; [lia|reflexivity]].
  destruct (periodic_loop timezone_offset rounds self) as [[[w e|] self1] t1].
  - unfold try_finally.
    destruct (try_except (lift (Raised e)) is_KeyboardInterrupt
                (fun _ => print [293]) w self1) as [[r0 self1'] t0] eqn:Hhandled.
    assert (self1' = self1 /\ t0 = []) as [-> ->].
    { revert Hhandled. unfold try_except, lift, print.
      destruct (is_KeyboardInterrupt e); intros H; injection H as <- <- <-;
        split; reflexivity. }
    destruct (close_run w self1) as (_ & _ & _ & _ & Hcalls & _).
    destruct (close w self1) as [[rc self2] t2].
    unfold calls in Hcalls. cbn [fst snd] in Hcalls, Hcount, Hkept.
    subst t2.
    assert (sockets_created
              (match rc with
               | Returned _ =>
                   (r0, self2,
                    [] ++ match sock self1 with
                          | Some _ => [ev_close]
                          | None => []
                          end)
               | Raised e1 =>
                   (Raised e1, self2,
                    [] ++ match sock self1 with
                          | Some _ => [ev_close]
                          | None => []
                          end)
               end,
               t1).2 = sockets_created t1) as Hsame by reflexivity.
    assert (forall (x : result unit * TecomatRTC * list event),
              x.2 = match sock self1 with
                    | Some _ => [ev_close]
                    | None => []
                    end ->
              sockets_created (let '(r, self, t') := x in
                               (Some r, self, t1 ++ t')).2 =
              sockets_created t1) as Hcount1.
    { intros [[? ?] t'] Ht'. cbn [snd] in Ht' |- *. subst t'.
      rewrite sockets_created_app. destruct (sock self1); cbn; lia. }
    rewrite Hcount1 by (destruct rc; reflexivity).
    rewrite Hcount. split.
    + destruct (sock self), (sock self1); cbn; lia.
    + intros [s ->]. reflexivity.
  - cbn [fst snd] in Hcount, Hkept |- *. rewrite Hcount. split.
    + destruct (sock self), (sock self1); cbn; lia.
    + intros [s ->]. reflexivity.
Qed.

(** X28: an exception out of [time.sleep] ends the loop in that round,
    whatever rounds might have followed: on a console that works, the socket
    is closed, and the result is a normal return for a [KeyboardInterrupt]
    and the exception itself otherwise. *)
Theorem periodic_update_interrupted_sleep start before w e after self :
  first_failure start [285; 286] = Returned tt ->
  Forall (round_returns timezone_offset) before ->
  raises_only_Exception w ->
  console_works w ->
  (exists dt', target w None timezone_offset = Returned dt') ->
  exists self' t,
    periodic_update timezone_offset start
      (before ++ (w, Raised e) :: after) self =
      (Some (if is_KeyboardInterrupt e then Returned tt else Raised e),
       self', t) /\
    sock self' = None.
Proof.
  intros Hstart Hbefore Hworld Hconsole [dt' Htarget].
  assert (adjustment_printed w timezone_offset) as Hprinted
    by (intros _; apply first_failure_works, Hconsole).
  assert (handler_printed w) as Hhandler
    by (apply first_failure_works, Hconsole).
  assert (forall self,
            exists self1 t1,
              periodic_loop timezone_offset
                (before ++ (w, Raised e) :: after) self =
              (ended_by w e, self1, t1)) as Hloop.
  { induction Hbefore as [|[w0 slept] rounds Hround _ IH]; intros self0.
    - cbn [app periodic_loop].
      destruct (set_rtc_returns w self0 None timezone_offset 2 true dt'
                  Hworld Hprinted Hhandler Htarget) as [b Hb].
      destruct (set_rtc None timezone_offset 2 true w self0) as [[r self1] t1].
      unfold outcome in Hb. cbn in Hb. subst r. eauto.
    - destruct Hround
        as (Hworld0 & [dt0 Htarget0] & Hprinted0 & Hhandler0 & Hslept).
      cbn in Hworld0, Htarget0, Hprinted0, Hhandler0, Hslept. subst slept.
      cbn [app periodic_loop].
      destruct (set_rtc_returns w0 self0 None timezone_offset 2 true dt0
                  Hworld0 Hprinted0 Hhandler0 Htarget0) as [b Hb].
      destruct (set_rtc None timezone_offset 2 true w0 self0)
        as [[r self1] t1].
      unfold outcome in Hb. cbn in Hb. subst r.
      destruct (IH self1) as (self2 & t2 & ->). eauto. }
  destruct (Hloop self) as (self1 & t1 & Hended).
  unfold periodic_update. rewrite Hstart, Hended.
  unfold try_finally, try_except, lift, print.
  destruct (close_run w self1) as (Hclosed & _).
  pose proof (close_works w self1 Hconsole) as Hout.
  destruct (is_KeyboardInterrupt e); cbv beta;
    rewrite ?(first_failure_works w _ Hconsole);
    destruct (close w self1) as [[rc self2] t2];
    unfold final, outcome in Hclosed, Hout; cbn [fst snd] in Hclosed, Hout;
    subst rc; eauto.
Qed.
End Periodic.

(** ** The further properties at sample inputs *)

Lemma int_digits_raises : raises_only_ValueError int_digits.
Proof.
  intros s e. unfold int_digits.
  repeat case_match; intros; simplify_eq; reflexivity.
Qed.

Lemma plc_acks_Exception : raises_only_Exception plc_acks.
Proof. apply world_replying_Exception. discriminate. Qed.

Lemma plc_silent_Exception : raises_only_Exception plc_silent.
Proof.
  apply world_replying_Exception. intros e He. injection He as <-.
  reflexivity.
Qed.

Lemma new_years_eve_valid : valid_ClockValue new_years_eve.
Proof. unfold valid_ClockValue, dow. cbn. lia. Qed.

Lemma set_rtc_reuses_socket_witness :
  ev_socket (Returned tt)
    ∉ calls (set_rtc (Some friday) 0 2 true plc_acks rtc_connected).
Proof.
  apply (set_rtc_reuses_socket plc_acks rtc_connected
           {| bound := true; timeout_set := Some 2%Q |} (Some friday) 0 2 true).
  reflexivity.
Defined.

Lemma failed_bind_is_not_retried_witness :
  outcome (set_rtc (Some friday) 0 2 true port_in_use rtc0) = Returned false /\
  outcome (set_rtc (Some friday) 0 2 true (on_latin_console port_in_use) rtc0) =
    Raised (UnicodeEncodeError
      ("'latin-1' codec can't encode character '\u274c' in position 0"
       +:+ ": ordinal not in range(256)")) /\
  ev_bind 64481 (Returned tt)
    ∉ calls (set_rtc (Some friday) 0 2 true plc_acks
               (final (set_rtc (Some friday) 0 2 true port_in_use rtc0))).
Proof.
  assert (forall w, adjustment_printed w 0) as Hprinted
    by (intros w Hno; destruct (Hno eq_refl)).
  destruct (failed_bind_is_not_retried port_in_use rtc0
              (OSError "[Errno 98] Address already in use")
              (Some friday) 0 2 true friday plc_acks (Some friday) 0 2 true
              eq_refl eq_refl eq_refl eq_refl eq_refl (Hprinted _))
    as (Hfalse & _ & _ & _ & Hbind).
  destruct (failed_bind_is_not_retried (on_latin_console port_in_use) rtc0
              (OSError "[Errno 98] Address already in use")
              (Some friday) 0 2 true friday plc_acks (Some friday) 0 2 true
              eq_refl eq_refl eq_refl eq_refl eq_refl (Hprinted _))
    as (_ & Hraised & _).
  split; [apply Hfalse; reflexivity|].
  split; [apply Hraised; reflexivity|apply Hbind].
Defined.

Lemma set_rtc_sends_the_frame_witness :
  sent (calls (set_rtc (Some friday) 0 2 true plc_acks rtc0)) = [] \/
  exists frame r,
    _build_rtc_packet rtc0 friday = Returned frame /\
    sent (calls (set_rtc (Some friday) 0 2 true plc_acks rtc0)) =
      [(frame, ("192.168.11.50", 61682), r)].
Proof.
  apply (set_rtc_sends_the_frame plc_acks rtc0 (Some friday) 0 2 true friday).
  reflexivity.
Defined.

Lemma set_rtc_invalid_date_sends_nothing_witness :
  outcome (set_rtc (Some year_2100) 0 2 true plc_acks rtc0) = Returned false /\
  sent (calls (set_rtc (Some year_2100) 0 2 true plc_acks rtc0)) = [].
Proof.
  destruct (set_rtc_invalid_date_sends_nothing plc_acks rtc0 (Some year_2100)
              0 2 true year_2100
              (ValueError "Year out of range: 2100 (must be 2000-2099)")
              eq_refl eq_refl)
    as (Hsent & _ & Hfalse).
  split; [|exact Hsent].
  apply Hfalse; [exact plc_acks_Exception| |reflexivity].
  intros Hno. destruct (Hno eq_refl).
Defined.

Lemma set_rtc_leaves_socket_open_witness :
  is_Some (sock (final (set_rtc (Some friday) 0 2 true interrupted rtc0))).
Proof.
  destruct (set_rtc_leaves_socket_open interrupted rtc0 (Some friday) 0 2 true)
    as (_ & _ & _ & _ & Hheld).
  apply Hheld. right. in_trace.
Defined.

Lemma set_rtc_verified_exchange_witness :
  exists dt' frame response addr,
    target plc_acks (Some friday) 0 = Returned dt' /\
    _build_rtc_packet rtc0 dt' = Returned frame /\
    calls (set_rtc (Some friday) 0 2 true plc_acks rtc0) =
      connect_calls rtc0 ++
      [ev_sendto frame ("192.168.11.50", 61682) (Returned tt);
       ev_settimeout 2 (Returned tt);
       ev_recvfrom 1024 (Returned (response, addr))].
Proof.
  apply (set_rtc_verified_exchange plc_acks rtc0 (Some friday) 0 2).
  reflexivity.
Defined.

Lemma build_rtc_packet_returns_iff_witness :
  exists frame : bytes, _build_rtc_packet rtc0 february_30 = Returned frame.
Proof.
  apply (build_rtc_packet_returns_iff rtc0 february_30).
  split; [intros []; cbn; lia|unfold dow; cbn; lia].
Defined.

Lemma build_rtc_packet_well_formed_witness :
  length friday_frame = 24%nat /\ Forall (fun b => 0 <= b < 256) friday_frame.
Proof.
  apply (build_rtc_packet_well_formed rtc0 friday friday_frame). reflexivity.
Defined.

Lemma build_rtc_packet_injective_witness :
  (forall f, field_value f friday = field_value f friday_later) /\
  dow friday = dow friday_later.
Proof.
  apply (build_rtc_packet_injective rtc0 friday friday_later friday_frame);
    reflexivity.
Defined.

Lemma calculate_checksum_detects_one_byte_witness :
  _calculate_checksum rtc0 [8; 25; 10; 17; 14; 30; 0; 5] <>
  _calculate_checksum rtc0 [8; 25; 10; 18; 14; 30; 0; 5].
Proof.
  apply (calculate_checksum_detects_one_byte rtc0 [8; 25; 10] [14; 30; 0; 5]
           17 18); lia.
Defined.

Lemma calculate_checksum_permutation_witness :
  _calculate_checksum rtc0 [8; 25; 10; 17; 14; 30; 0; 5] =
  _calculate_checksum rtc0 [8; 25; 17; 10; 14; 30; 0; 5].
Proof.
  apply (calculate_checksum_permutation rtc0).
  apply perm_skip, perm_skip, perm_swap.
Defined.

Lemma parse_response_ignores_trailing_bytes_witness :
  exists d' : dict,
    _parse_response rtc0 (ack_reply ++ [0x16; 0x00]) = Returned d' /\
    Acknowledged d' 6.
Proof.
  eapply (parse_response_ignores_trailing_bytes rtc0 ack_reply [0x16; 0x00] _ 6);
    [reflexivity|split; reflexivity].
Defined.

Lemma parse_response_of_echo_witness :
  sum (data_block new_years_eve) = 261 /\
  exists frame : bytes,
    _build_rtc_packet rtc0 new_years_eve = Returned frame /\
    decoded_Acknowledged rtc0 frame.
Proof.
  split; [reflexivity|].
  pose proof (build_rtc_packet_valid rtc0 new_years_eve new_years_eve_valid)
    as Hframe.
  eexists. split; [exact Hframe|].
  apply (parse_response_of_echo rtc0 new_years_eve _ new_years_eve_valid
           Hframe).
  reflexivity.
Defined.

Lemma parse_time_string_returns_iff_witness :
  parse_time_string int_digits "14:30:00" = Returned (14, 30, 0).
Proof.
  apply (parse_time_string_returns_iff int_digits "14:30:00" 14 30 0).
  exists "14", "30", "00". repeat split; try reflexivity; lia.
Defined.

Lemma parse_time_string_wrong_shape_witness :
  parse_time_string int_digits "14:30" =
  Raised (ValueError
            "Invalid time format '14:30': Time must be in format HH:MM:SS").
Proof.
  apply (parse_time_string_wrong_shape int_digits "14:30").
  vm_compute. discriminate.
Defined.

Lemma parsers_raise_ValueError_quoting_input_witness :
  exists msg,
    ValueError "Invalid time format '24:00:00': Hour must be 0-23, got 24" =
    ValueError ("Invalid time format '" +:+ "24:00:00" +:+ "': " +:+ msg).
Proof.
  destruct (parsers_raise_ValueError_quoting_input int_digits
              int_digits_raises) as [Htime _].
  apply (Htime "24:00:00"). reflexivity.
Defined.

Lemma parse_date_string_returns_iff_witness :
  parse_date_string int_digits "2024-02-29" = Returned (2024, 2, 29).
Proof.
  apply (parse_date_string_returns_iff int_digits "2024-02-29" 2024 2 29).
  exists "2024", "02", "29". repeat split; try reflexivity; vm_compute;
    discriminate.
Defined.

Lemma parsed_date_and_time_encode_witness :
  exists dt (frame : bytes),
    new_datetime 2025 10 17 14 30 0 = Returned dt /\
    valid_ClockValue dt /\
    _build_rtc_packet rtc0 dt = Returned frame.
Proof.
  apply (parsed_date_and_time_encode int_digits rtc0 "2025-10-17" "14:30:00");
    reflexivity.
Defined.

Lemma main_always_exits_witness :
  main int_digits (SystemExit 2) plc_acks = (sys_exit 2, None, []) /\
  exists code,
    ended (main int_digits (Namespace args_friday) interrupted) =
      sys_exit code /\
    (code = 0 \/ code = 1 \/ code = 130).
Proof.
  split.
  - apply (main_always_exits int_digits (SystemExit 2) plc_acks
             int_digits_raises (world_replying_console _)).
  - apply (main_always_exits int_digits (Namespace args_friday) interrupted
             int_digits_raises (world_replying_console _)).
Defined.

Lemma main_rejects_bad_input_witness :
  main int_digits (Namespace args_february_30) plc_acks =
    (sys_exit 1, None, []).
Proof.
  destruct (main_rejects_bad_input int_digits args_february_30 plc_acks
              int_digits_raises) as [Hdate _].
  apply (Hdate (ValueError
    "Invalid date format '2025-02-30': day is out of range for month"));
    reflexivity.
Defined.

Lemma main_offset_overflow_witness :
  main int_digits (Namespace args_far_ahead) plc_acks =
    (sys_exit 1, Some rtc0, []).
Proof.
  apply (main_offset_overflow int_digits args_far_ahead plc_acks friday
           (OverflowError "date value out of range")
           (world_replying_console _)); try reflexivity.
  discriminate.
Defined.

Lemma main_closes_the_socket_witness :
  last (main_calls (main int_digits (Namespace args_friday) plc_silent)) =
    Some ev_close.
Proof.
  destruct (main_closes_the_socket int_digits args_friday plc_silent rtc0)
    as (_ & _ & _ & _ & Hlast); [reflexivity|].
  apply Hlast. in_trace.
Defined.

Lemma main_exits_0_iff_witness :
  ended (main int_digits (Namespace args_friday) plc_acks) = sys_exit 0.
Proof.
  apply (main_exits_0_iff int_digits args_friday plc_acks
           (world_replying_console _)).
  exists ack_reply, plc. split; [in_trace|].
  eexists _, 6. split; [reflexivity|]. split; reflexivity.
Defined.

Lemma round_returns_silent : round_returns 0 (plc_silent, Returned tt).
Proof.
  split; [exact plc_silent_Exception|]. split; [eexists; reflexivity|].
  split; [intros Hno; destruct (Hno eq_refl)|]. split; reflexivity.
Qed.

Lemma periodic_update_keeps_running_witness :
  exists self' t,
    periodic_update 0 plc_silent
      [(plc_silent, Returned tt); (plc_silent, Returned tt)] rtc0 =
      (None, self', t) /\
    ev_close ∉ t.
Proof.
  apply (periodic_update_keeps_running 0 plc_silent); [reflexivity|].
  repeat constructor; apply round_returns_silent.
Defined.

Lemma periodic_update_ends_closed_witness :
  exists self',
    periodic_update 0 plc_acks [(interrupted, Returned tt)] rtc0 =
      (Some (Returned tt), self',
       [ev_socket (Returned tt); ev_bind 64481 (Returned tt);
        ev_sendto friday_frame plc (Returned tt);
        ev_settimeout 2 (Returned tt);
        ev_recvfrom 1024 (Raised KeyboardInterrupt); ev_close]) /\
    sock self' = None.
Proof.
  destruct (periodic_update_ends_closed 0 plc_acks [(interrupted, Returned tt)]
              rtc0 interrupted KeyboardInterrupt
              (final (set_rtc None 0 2 true interrupted rtc0))
              (calls (set_rtc None 0 2 true interrupted rtc0))
              eq_refl eq_refl)
    as (r & self' & Hrun & Hclosed & _ & Hworks).
  rewrite (Hworks (world_replying_console _)) in Hrun.
  exists self'. split; [exact Hrun|exact Hclosed].
Defined.

Lemma periodic_update_one_socket_witness :
  sockets_created
    (periodic_update 0 plc_acks
       [(plc_silent, Returned tt); (plc_acks, Returned tt)]
       rtc_connected).2 = 0%nat.
Proof.
  apply (periodic_update_one_socket 0). eexists. reflexivity.
Defined.

Lemma periodic_update_interrupted_sleep_witness :
  exists self' t,
    periodic_update 0 plc_acks
      ([(plc_silent, Returned tt)]
       ++ (plc_acks, Raised KeyboardInterrupt) :: [(plc_acks, Returned tt)])
      rtc0 = (Some (Returned tt), self', t) /\
    sock self' = None.
Proof.
  apply (periodic_update_interrupted_sleep 0 plc_acks
           [(plc_silent, Returned tt)]
           plc_acks KeyboardInterrupt [(plc_acks, Returned tt)] rtc0).
  - reflexivity.
  - repeat constructor; apply round_returns_silent.
  - exact plc_acks_Exception.
  - apply world_replying_console.
  - eexists. reflexivity.
Defined.
